(** * TimeVQVAE evaluation pipeline: a shallow embedding of
      [evaluation/evaluation.py] (class [Evaluation]) and the properties
      of its batching, feature-extraction and scoring code.

    Python integers are [Z]; floating-point values are IEEE-754 data
    ([spec_float]); an exception is a value of [exn] carried by the
    [result] type; the collaborators imported from other modules
    (classifier, kernel transform, generative model, plotting, telemetry
    sink) are fields of an environment record. *)

From Stdlib Require Import String.
From Stdlib Require Import List ZArith Lia Bool.
From Stdlib Require Import Floats.SpecFloat.
Import ListNotations.

Local Open Scope string_scope.
Local Open Scope list_scope.
Local Open Scope Z_scope.

(* ================================================================= *)
(** ** Exceptions and the error monad *)

(** The Python exceptions the module can raise itself, the error of the
    spec's taxonomy that the distance routine is documented to raise, and
    any other exception of a collaborator. *)
Inductive exn : Type :=
| AssertionError
| ValueError
| AttributeError
| IndexError
| ZeroDivisionError
| KeyError
| RuntimeError
| InsufficientDataError
| OtherError (tag : string).

Inductive result (A : Type) : Type :=
| Ok (a : A)
| Err (e : exn).

Arguments Ok {A} a.
Arguments Err {A} e.

Definition bind {A B : Type} (m : result A) (k : A -> result B) : result B :=
  match m with
  | Ok a => k a
  | Err e => Err e
  end.

Declare Scope py_scope.
Delimit Scope py_scope with py.
Notation "x <- m ;; k" := (bind m (fun x => k))
  (at level 61, m at next level, right associativity) : py_scope.
Notation "m ;;; k" := (bind m (fun _ => k))
  (at level 61, right associativity) : py_scope.
Local Open Scope py_scope.

(** [assert c] *)
Definition py_assert (c : bool) : result unit :=
  if c then Ok tt else Err AssertionError.

(** [for x in xs: acc.append(body(x))]: the first exception aborts the loop. *)
Fixpoint mapM {A B : Type} (body : A -> result B) (xs : list A) : result (list B) :=
  match xs with
  | [] => Ok []
  | x :: xs' =>
      y <- body x ;;
      ys <- mapM body xs' ;;
      Ok (y :: ys)
  end.

(* ================================================================= *)
(** ** Python integers, ranges and slices *)

(** [a // b] and [a % b]: floor division, the remainder has the sign of
    the divisor (as [Z.div] and [Z.modulo]); a zero divisor raises. *)
Definition py_floordiv (a b : Z) : result Z :=
  if b =? 0 then Err ZeroDivisionError else Ok (a / b).

Definition py_mod (a b : Z) : result Z :=
  if b =? 0 then Err ZeroDivisionError else Ok (a mod b).

(** [range(n)]: empty when [n <= 0]. *)
Definition py_range (n : Z) : list Z :=
  map Z.of_nat (seq 0 (Z.to_nat n)).

(** A slice bound of [slice(start, stop)] against a sequence of length
    [len]: a negative bound counts from the end, every bound is clamped. *)
Definition slice_bound (len i : Z) : Z :=
  if i <? 0 then Z.max (i + len) 0 else Z.min i len.

(** [l[start:stop]] *)
Definition py_slice {A : Type} (start stop : Z) (l : list A) : list A :=
  let len := Z.of_nat (length l) in
  let lo := slice_bound len start in
  let hi := slice_bound len stop in
  firstn (Z.to_nat (hi - lo)) (skipn (Z.to_nat lo) l).

(** [for i in range(n): acc.append(body(i))] *)
Definition for_range {B : Type} (n : Z) (body : Z -> result B) : result (list B) :=
  mapM body (py_range n).

(**
<<
    n_iters = n_samples // self.batch_size
    if n_samples % self.batch_size > 0:
        n_iters += 1
>>
*)
Definition n_iters_of (n_samples batch_size : Z) : result Z :=
  q <- py_floordiv n_samples batch_size ;;
  r <- py_mod n_samples batch_size ;;
  Ok (if r >? 0 then q + 1 else q).

(** [np.concatenate(parts, axis=0)] on arrays that are lists of rows: an
    empty list of arrays raises [ValueError]. *)
Definition np_concatenate {A : Type} (parts : list (list A)) : result (list A) :=
  match parts with
  | [] => Err ValueError
  | _ :: _ => Ok (concat parts)
  end.

(** The ceiling of [n / b], written without the code's case split. *)
Definition ceil_div (n b : Z) : Z := - ((- n) / b).

(** The slices the batching loop visits, in order. *)
Definition batch_slices {A : Type} (n_iters batch_size : Z) (l : list A) : list (list A) :=
  map (fun i => py_slice (i * batch_size) ((i + 1) * batch_size) l) (py_range n_iters).

(* ================================================================= *)
(** ** State and errors: the monad of the effectful methods *)

(** Sampling, checkpoint loading, plotting and logging read and change
    the world outside the object (random state, files, the current
    figure, the telemetry run).  An exception abandons the computation. *)
Definition M (W A : Type) : Type := W -> result (A * W).

Definition ret {W A : Type} (a : A) : M W A := fun w => Ok (a, w).

Definition bindM {W A B : Type} (m : M W A) (k : A -> M W B) : M W B :=
  fun w =>
    match m w with
    | Ok (a, w') => k a w'
    | Err e => Err e
    end.

(** A computation without effects, run inside an effectful one. *)
Definition lift {W A : Type} (r : result A) : M W A :=
  fun w =>
    match r with
    | Ok a => Ok (a, w)
    | Err e => Err e
    end.

Notation "x <~ m ;; k" := (bindM m (fun x => k))
  (at level 61, m at next level, right associativity) : py_scope.
Notation "' p <~ m ;; k" := (bindM m (fun x => match x with p => k end))
  (at level 61, p pattern, m at next level, right associativity) : py_scope.
Notation "m ;;~ k" := (bindM m (fun _ => k))
  (at level 61, right associativity) : py_scope.

(** [for x in xs: acc.append(body(x))] with effects. *)
Fixpoint forM {W A B : Type} (body : A -> M W B) (xs : list A) : M W (list B) :=
  match xs with
  | [] => ret []
  | x :: xs' =>
      y <~ body x ;;
      ys <~ forM body xs' ;;
      ret (y :: ys)
  end.

(** [for x in xs: body(x)] *)
Fixpoint forM_ {W A : Type} (body : A -> M W unit) (xs : list A) : M W unit :=
  match xs with
  | [] => ret tt
  | x :: xs' => body x ;;~ forM_ body xs'
  end.

(* ================================================================= *)
(** ** Arrays *)

Definition float : Type := spec_float.

(** One channel of one sample: shape [(l)]. *)
Definition series : Type := list float.

(** A two-dimensional array [(b d)], as the list of its rows. *)
Definition ndarray2 : Type := list (list float).

(** A batch of time series, shape [(b c l)]: [rows3] has one entry per
    sample, each a list of [chans] channels of [width] values.  The two
    trailing sizes are kept apart from the rows, so that an empty batch
    still has its channel count. *)
Record ndarray3 : Type := Array3 {
  chans : nat;
  width : nat;
  rows3 : list (list series)
}.

(** [x.shape[0]] *)
Definition shape0 (x : ndarray3) : Z := Z.of_nat (length (rows3 x)).

(** [x[start:stop]] *)
Definition slice3 (start stop : Z) (x : ndarray3) : ndarray3 :=
  Array3 (chans x) (width x) (py_slice start stop (rows3 x)).

(** [x[:,0,:]]: index 0 on the channel axis, out of bounds when the
    array has no channel. *)
Definition channel0 (x : ndarray3) : result ndarray2 :=
  match chans x with
  | O => Err IndexError
  | S _ => Ok (map (fun smp => nth 0 smp []) (rows3 x))
  end.

(** Two arrays agree on the channel count and the series length. *)
Definition same_trailing (t u : ndarray3) : bool :=
  (chans t =? chans u)%nat && (width t =? width u)%nat.

(** [torch.cat(ts)] along the sample axis: the list must not be empty
    and the trailing sizes must agree.  The class of the exception for an
    empty list is the library's and has changed between versions of torch
    ([RuntimeError], later [ValueError]); it is the argument
    [empty_error]. *)
Definition torch_cat (empty_error : exn) (ts : list ndarray3) : result ndarray3 :=
  match ts with
  | [] => Err empty_error
  | t :: rest =>
      if forallb (same_trailing t) rest
      then Ok (Array3 (chans t) (width t) (concat (map rows3 ts)))
      else Err RuntimeError
  end.

(** [np.concatenate(xs, axis=0)] on three-dimensional arrays. *)
Definition np_concatenate3 (ts : list ndarray3) : result ndarray3 :=
  match ts with
  | [] => Err ValueError
  | t :: rest =>
      if forallb (same_trailing t) rest
      then Ok (Array3 (chans t) (width t) (concat (map rows3 ts)))
      else Err ValueError
  end.

(** [z[:,k]] *)
Definition column (k : nat) (z : ndarray2) : result (list float) :=
  mapM (fun r => match nth_error r k with
                 | Some v => Ok v
                 | None => Err IndexError
                 end) z.

(** [x in xs] for strings. *)
Definition in_list (x : string) (xs : list string) : bool :=
  existsb (String.eqb x) xs.

(* ================================================================= *)
(** ** Outlier filter *)

Definition is_finite (v : float) : bool :=
  match v with
  | S754_zero _ | S754_finite _ _ _ => true
  | S754_infinity _ | S754_nan => false
  end.

(** A row survives when every entry is finite. *)
Definition row_finite (r : list float) : bool := forallb is_finite r.

(** Modelled from the spec: [remove_outliers], imported from [utils],
    whose source is not part of the sources at hand.  The spec (4.3):
    "Drops rows that contain any non-finite value (e.g. not-a-number or
    infinite magnitude) in any dimension"; whole rows are removed and the
    survivors keep their relative order. *)
Definition remove_outliers (z : ndarray2) : ndarray2 := filter row_finite z.

(** The number of rows that survive outlier filtering. *)
Definition surviving_rows (z : ndarray2) : nat :=
  count_occ bool_dec (map row_finite z) true.

(* ================================================================= *)
(** ** Distribution distance *)

Section DistributionDistance.

(** [calculate_fid], imported from [supervised_FCN_2.example_compute_FID]. *)
Variable calculate_fid : ndarray2 -> ndarray2 -> result float.

(**
<<
  def fid_score(self, z1, z2):
      z1, z2 = remove_outliers(z1), remove_outliers(z2)
      fid = calculate_fid(z1, z2)
      return fid
>>
*)
Definition fid_score (z1 z2 : ndarray2) : result float :=
  let z1' := remove_outliers z1 in
  let z2' := remove_outliers z2 in
  fid <- calculate_fid z1' z2' ;;
  Ok fid.

End DistributionDistance.

(** Modelled from the spec: [calculate_fid], whose source is not part of
    the sources at hand.  The spec (4.4, 7): it "estimates each set's mean
    vector and covariance matrix, and computes the closed-form Frechet
    distance", and "requires both sets to have >= 2 surviving rows after
    filtering (covariance undefined otherwise) - fails with an
    insufficient-data error if not".  The closed form itself is floating
    point arithmetic and stays a parameter, [frechet]. *)
Definition calculate_fid_spec (frechet : ndarray2 -> ndarray2 -> float)
    (z1 z2 : ndarray2) : result float :=
  if ((length z1 <? 2) || (length z2 <? 2))%nat
  then Err InsufficientDataError
  else Ok (frechet z1 z2).

(* ================================================================= *)
(** ** Collaborators *)

(** The two frequency bands of the generative model: the low-frequency
    branch ([encoder_l], [vq_model_l], [zero_pad_high_freq], ['lf']) and the
    high-frequency one ([encoder_h], [vq_model_h], [zero_pad_low_freq],
    ['hf']). *)
Inductive band : Type := LF | HF.

(** What [evaluation.py] imports and calls: the pretrained classifier
    and the scores of [supervised_FCN_2], the kernel transform of
    [evaluation.rocket_functions], the dataset importers, the stage-2
    generative model and its samplers, the fidelity enhancer, scikit-learn,
    matplotlib and wandb.  Each is a function of the environment; one
    that touches files, random numbers, figures or the telemetry run is in
    the monad [M]. *)
Record Env : Type := {
  World : Type;
  Config : Type;
  Classifier : Type;
  Kernels : Type;
  Stage2 : Type;
  MaskGIT : Type;
  Stage1 : Type;
  FidelityEnhancer : Type;
  StateDict : Type;
  PCA : Type;
  Tokens : Type;
  Axes : Type;
  Image : Type;
  Device : Type;

  (* configuration: [config['evaluation']['batch_size']] *)
  config_evaluation_batch_size : Config -> result Z;

  (* torch: [torch.device(index)], [tensor.to(device)], and the exception
     [torch.cat] raises for an empty list *)
  torch_device : Z -> result Device;
  tensor_to : Device -> ndarray3 -> result ndarray3;
  torch_cat_empty_error : exn;

  (* numeric conversions and arithmetic on array elements *)
  to_float32 : ndarray3 -> ndarray3;
  softmax : list float -> list float;
  tensor_add : ndarray3 -> ndarray3 -> result ndarray3;
  float_add : float -> float -> float;
  float_sub : float -> float -> float;
  float_mul : float -> float -> float;
  np_min : list float -> result float;
  np_max : list float -> result float;

  (* supervised_FCN_2 *)
  load_pretrained_FCN : string -> M World Classifier;
  fcn_forward : Classifier -> ndarray3 -> bool -> result ndarray2;
  calculate_inception_score : ndarray2 -> result (float * float);

  (* evaluation.rocket_functions *)
  generate_kernels : Z -> Z -> M World Kernels;
  apply_kernels : ndarray2 -> Kernels -> result ndarray2;

  (* preprocessing.preprocess_ucr *)
  DatasetImporterUCR : string -> bool ->
    M World (ndarray3 * ndarray3 * list Z * list Z);
  DatasetImporterCustom :
    M World (ndarray3 * ndarray3 * list Z * list Z);

  (* experiments.exp_stage2, generators.maskgit, generators.sample *)
  ExpStage2_load_from_checkpoint :
    string -> string -> Z -> Config -> Z -> bool -> string -> bool ->
    M World Stage2;
  stage2_maskgit : Stage2 -> MaskGIT;
  maskgit_stage1 : MaskGIT -> Stage1;
  unconditional_sample : MaskGIT -> Z -> Z ->
    M World (ndarray3 * ndarray3 * ndarray3);
  conditional_sample : MaskGIT -> Z -> option Z -> Z ->
    M World (ndarray3 * ndarray3 * ndarray3);
  encode_to_z_q : MaskGIT -> ndarray3 -> Stage1 -> band -> float ->
    M World Tokens;
  decode_token_ind_to_timeseries : MaskGIT -> Tokens -> band ->
    M World ndarray3;

  (* generators.fidelity_enhancer, torch *)
  FidelityEnhancer_new : Z -> Z -> Config -> M World FidelityEnhancer;
  torch_load : string -> M World StateDict;
  load_state_dict : FidelityEnhancer -> StateDict -> result FidelityEnhancer;
  fe_forward : FidelityEnhancer -> ndarray3 -> M World ndarray3;
  fe_tau : FidelityEnhancer -> float;
  F_interpolate : ndarray3 -> Z -> result ndarray3;

  (* sklearn *)
  PCA_new : PCA;
  pca_fit_transform : PCA -> ndarray2 -> result (PCA * ndarray2);
  pca_transform : PCA -> ndarray2 -> result ndarray2;
  tsne_fit_transform : ndarray2 -> M World ndarray2;

  (* numpy: random indices, fancy indexing after [squeeze] *)
  np_random_randint : Z -> Z -> Z -> M World (list Z);
  np_random_choice : Z -> Z -> M World (list Z);
  squeeze_take : ndarray3 -> list Z -> result ndarray2;
  np_squeeze : ndarray2 -> ndarray2;
  py_repr : list string -> string;

  (* matplotlib *)
  plt_subplots : Z -> Z -> M World (Axes * Axes);
  plt_suptitle : string -> M World unit;
  axes_plot : Axes -> series -> float -> M World unit;
  axes_set_ylim : Axes -> float -> float -> M World unit;
  plt_figure : M World unit;
  plt_scatter : list float -> list float -> option (list string) ->
    option string -> M World unit;
  plt_xlim : float -> float -> M World unit;
  plt_ylim : float -> float -> M World unit;
  plt_legend : M World unit;
  plt_tight_layout : M World unit;
  plt_close : M World unit;

  (* wandb: the telemetry sink *)
  wandb_Image : M World Image;
  wandb_log : string -> Image -> M World unit
}.

(* ================================================================= *)
(** ** The class [Evaluation] *)

Section EvaluationClass.

Context {E : Env}.

Local Abbreviation Eff := (M (World E)).

(** The value of [self.fidelity_enhancer]: [nn.Identity()] or a
    [FidelityEnhancer] restored from its checkpoint. *)
Inductive Enhancer : Type :=
| Identity
| Loaded (fe : FidelityEnhancer E).

(** [self.fidelity_enhancer(x)] *)
Definition enhancer_forward (m : Enhancer) (x : ndarray3) : Eff ndarray3 :=
  match m with
  | Identity => ret x
  | Loaded fe => fe_forward E fe x
  end.

(** [self.fidelity_enhancer.tau.item()]: [nn.Identity] has no
    attribute [tau]. *)
Definition enhancer_tau (m : Enhancer) : result float :=
  match m with
  | Identity => Err AttributeError
  | Loaded fe => Ok (fe_tau E fe)
  end.

(** The arguments of [Evaluation.__init__]. *)
Record InitArgs : Type := {
  arg_subset_dataset_name : string;
  arg_input_length : Z;
  arg_n_classes : Z;
  arg_gpu_device_index : Z;
  arg_config : Config E;
  arg_use_fidelity_enhancer : bool;
  arg_feature_extractor_type : string;
  arg_rocket_num_kernels : Z;
  arg_use_custom_dataset : bool
}.

(** The attributes of an [Evaluation] object.  An attribute that
    [__init__] sets only on some paths, or only after it has called a
    method on [self], is an [option]: [None] is "not set", and reading
    it raises [AttributeError]. *)
Record Evaluation : Type := {
  subset_dataset_name : string;
  device : Device E;
  config : Config E;
  batch_size : Z;
  feature_extractor_type : string;
  fcn : option (Classifier E);
  rocket_kernels : option (Kernels E);
  X_train : ndarray3;
  X_test : ndarray3;
  Y_train : list Z;
  Y_test : list Z;
  ts_len : Z;
  n_classes : Z;
  stage2 : Stage2 E;
  maskgit : MaskGIT E;
  stage1 : Stage1 E;
  fidelity_enhancer : Enhancer;
  pca : PCA E;
  z_train : option ndarray2;
  z_test : option ndarray2;
  xmin_pca : option float;
  xmax_pca : option float;
  ymin_pca : option float;
  ymax_pca : option float
}.

(** Reading an attribute that may be unset. *)
Definition getattr {A : Type} (a : option A) : result A :=
  match a with
  | Some v => Ok v
  | None => Err AttributeError
  end.

(**
<<
  def _extract_feature_representations(self, x):
      if self.feature_extractor_type == 'supervised_fcn':
          z = self.fcn(torch.from_numpy(x).float().to(self.device),
                       return_feature_vector=True).cpu().detach().numpy()
      elif self.feature_extractor_type == 'rocket':
          x = x[:,0,:]
          z = apply_kernels(x, self.rocket_kernels)
      else:
          raise ValueError
      return z
>>
    The callee [self.fcn] is looked up before its argument is built. *)
Definition _extract_feature_representations (self : Evaluation) (x : ndarray3)
  : result ndarray2 :=
  if (feature_extractor_type self =? "supervised_fcn")%string then
    f <- getattr (fcn self) ;;
    fcn_forward E f (to_float32 E x) true
  else if (feature_extractor_type self =? "rocket")%string then
    x0 <- channel0 x ;;
    k <- getattr (rocket_kernels self) ;;
    apply_kernels E x0 k
  else Err ValueError.

(** [X = self.X_train] or [self.X_test], after [assert kind in ['train', 'test']]. *)
Definition select_split (self : Evaluation) (kind : string) : result ndarray3 :=
  py_assert (in_list kind ["train"; "test"]) ;;;
  if (kind =? "train")%string then Ok (X_train self)
  else if (kind =? "test")%string then Ok (X_test self)
  else Err ValueError.

(**
<<
  def compute_z(self, kind):
      ...
      n_samples = X.shape[0]
      n_iters = n_samples // self.batch_size
      if n_samples % self.batch_size > 0:
          n_iters += 1
      zs = []
      for i in range(n_iters):
          s = slice(i * self.batch_size, (i + 1) * self.batch_size)
          z_t = self._extract_feature_representations(X[s])
          zs.append(z_t)
      zs = np.concatenate(zs, axis=0)
      return zs
>>
*)
Definition compute_z (self : Evaluation) (kind : string) : result ndarray2 :=
  X <- select_split self kind ;;
  let n_samples := shape0 X in
  n_iters <- n_iters_of n_samples (batch_size self) ;;
  zs <- for_range n_iters (fun i =>
          let lo := i * batch_size self in
          let hi := (i + 1) * batch_size self in
          _extract_feature_representations self (slice3 lo hi X)) ;;
  np_concatenate zs.

(** [compute_z_gen]: the same loop over its argument [X_gen]. *)
Definition compute_z_gen (self : Evaluation) (X_gen : ndarray3) : result ndarray2 :=
  let n_samples := shape0 X_gen in
  n_iters <- n_iters_of n_samples (batch_size self) ;;
  z_gen <- for_range n_iters (fun i =>
          let lo := i * batch_size self in
          let hi := (i + 1) * batch_size self in
          _extract_feature_representations self (slice3 lo hi X_gen)) ;;
  np_concatenate z_gen.

(**
<<
  def inception_score(self, X_gen):
      n_samples = self.X_test.shape[0]
      n_iters = n_samples // self.batch_size
      if n_samples % self.batch_size > 0:
          n_iters += 1
      p_yx_gen = []
      for i in range(n_iters):
          s = slice(i * self.batch_size, (i + 1) * self.batch_size)
          p_yx_g = self.fcn(X_gen[s].float().to(self.device))
          p_yx_g = torch.softmax(p_yx_g, dim=-1).cpu().detach().numpy()
          p_yx_gen.append(p_yx_g)
      p_yx_gen = np.concatenate(p_yx_gen, axis=0)
      IS_mean, IS_std = calculate_inception_score(p_yx_gen)
      return IS_mean, IS_std
>>
    [class_probabilities] is the method up to and including the
    concatenation, the value of [p_yx_gen] that is scored;
    [inception_score] is the whole method.  As in the extractor,
    [self.fcn] is looked up before the slice of [X_gen] is taken. *)
Definition class_probabilities (self : Evaluation) (X_gen : ndarray3)
  : result ndarray2 :=
  let n_samples := shape0 (X_test self) in
  n_iters <- n_iters_of n_samples (batch_size self) ;;
  p_yx_gen <- for_range n_iters (fun i =>
          let lo := i * batch_size self in
          let hi := (i + 1) * batch_size self in
          f <- getattr (fcn self) ;;
          p_yx_g <- fcn_forward E f (to_float32 E (slice3 lo hi X_gen)) false ;;
          Ok (map (softmax E) p_yx_g)) ;;
  np_concatenate p_yx_gen.

Definition inception_score (self : Evaluation) (X_gen : ndarray3)
  : result (float * float) :=
  p_yx_gen <- class_probabilities self X_gen ;;
  calculate_inception_score E p_yx_gen.

(**
<<
  num_batches = x_new.shape[0] // self.batch_size
                + (1 if x_new.shape[0] % self.batch_size != 0 else 0)
>>
*)
Definition num_batches_of (n batch_size : Z) : result Z :=
  q <- py_floordiv n batch_size ;;
  r <- py_mod n batch_size ;;
  Ok (q + (if negb (r =? 0) then 1 else 0)).

(**
<<
  def sample(self, n_samples, kind, class_index=None):
      assert kind in ['unconditional', 'conditional']
      if kind == 'unconditional':
          x_new_l, x_new_h, x_new = unconditional_sample(...)
      elif kind == 'conditional':
          x_new_l, x_new_h, x_new = conditional_sample(...)
      else:
          raise ValueError
      num_batches = ...
      X_new_R = []
      for i in range(num_batches):
          start_idx = i * self.batch_size
          end_idx = start_idx + self.batch_size
          mini_batch = x_new[start_idx:end_idx]
          x_new_R = self.fidelity_enhancer(mini_batch.to(self.device)).cpu()
          X_new_R.append(x_new_R)
      X_new_R = torch.cat(X_new_R)
      return (x_new_l, x_new_h, x_new), X_new_R
>>
*)
Definition sample (self : Evaluation) (n_samples : Z) (kind : string)
    (class_index : option Z)
  : Eff ((ndarray3 * ndarray3 * ndarray3) * ndarray3) :=
  lift (py_assert (in_list kind ["unconditional"; "conditional"])) ;;~
  '(x_new_l, x_new_h, x_new) <~
     (if (kind =? "unconditional")%string then
        unconditional_sample E (maskgit self) n_samples (batch_size self)
      else if (kind =? "conditional")%string then
        conditional_sample E (maskgit self) n_samples class_index (batch_size self)
      else lift (Err ValueError)) ;;
  num_batches <~ lift (num_batches_of (shape0 x_new) (batch_size self)) ;;
  X_new_R <~ forM (fun i =>
       let start_idx := i * batch_size self in
       let end_idx := start_idx + batch_size self in
       let mini_batch := slice3 start_idx end_idx x_new in
       enhancer_forward (fidelity_enhancer self) mini_batch)
     (py_range num_batches) ;;
  X_new_R <~ lift (torch_cat (torch_cat_empty_error E) X_new_R) ;;
  ret ((x_new_l, x_new_h, x_new), X_new_R).

(**
<<
  def compute_z_svq(self, kind):
      ...
      for i in range(n_iters):
          s = slice(i * self.batch_size, (i + 1) * self.batch_size)
          x = X[s]
          x = torch.from_numpy(x).float().to(self.device)
          tau = self.fidelity_enhancer.tau.item()
          _, s_a_l = self.maskgit.encode_to_z_q(x, ..., svq_temp=tau)
          _, s_a_h = self.maskgit.encode_to_z_q(x, ..., svq_temp=tau)
          x_a_l = self.maskgit.decode_token_ind_to_timeseries(s_a_l, 'lf')
          x_a_h = self.maskgit.decode_token_ind_to_timeseries(s_a_h, 'hf')
          x_a = x_a_l + x_a_h
          x_a = x_a.cpu().numpy().astype(float)
          xs_a.append(x_a)
          z_t = self._extract_feature_representations(x_a)
          zs.append(z_t)
      zs = np.concatenate(zs, axis=0)
      xs_a = np.concatenate(xs_a, axis=0)
      return zs, xs_a
>>
    The slice is moved to [self.device] before [tau] is read; nothing
    that ran earlier on the object need have used that device (a custom
    dataset with the ['rocket'] extractor never does), so the transfer is
    a step that can raise. *)
Definition compute_z_svq (self : Evaluation) (kind : string)
  : Eff (ndarray2 * ndarray3) :=
  X <~ lift (select_split self kind) ;;
  let n_samples := shape0 X in
  n_iters <~ lift (n_iters_of n_samples (batch_size self)) ;;
  parts <~ forM (fun i =>
       let lo := i * batch_size self in
       let hi := (i + 1) * batch_size self in
       x <~ lift (tensor_to E (device self) (to_float32 E (slice3 lo hi X))) ;;
       tau <~ lift (enhancer_tau (fidelity_enhancer self)) ;;
       s_a_l <~ encode_to_z_q E (maskgit self) x (stage1 self) LF tau ;;
       s_a_h <~ encode_to_z_q E (maskgit self) x (stage1 self) HF tau ;;
       x_a_l <~ decode_token_ind_to_timeseries E (maskgit self) s_a_l LF ;;
       x_a_h <~ decode_token_ind_to_timeseries E (maskgit self) s_a_h HF ;;
       x_a <~ lift (tensor_add E x_a_l x_a_h) ;;
       z_t <~ lift (_extract_feature_representations self x_a) ;;
       ret (z_t, x_a))
     (py_range n_iters) ;;
  zs <~ lift (np_concatenate (map fst parts)) ;;
  xs_a <~ lift (np_concatenate3 (map snd parts)) ;;
  ret (zs, xs_a).

(** [Evaluation.__init__], in the order of the source: the device
    ([self.device = torch.device(gpu_device_index)]), batch size from
    the configuration, the extractor-type assertion, the classifier
    (unless a custom dataset is used), the kernel bank (for ['rocket']),
    the data, the stage-2 model, the fidelity enhancer or
    [nn.Identity()], then the features of both splits and the PCA
    fitted on the filtered train features with its axis bounds.
<<
      self.device = torch.device(gpu_device_index)
      self.config = config
      self.batch_size = self.config['evaluation']['batch_size']
      self.feature_extractor_type = feature_extractor_type
      assert feature_extractor_type in ['supervised_fcn', 'rocket'], ...
      if not use_custom_dataset:
          self.fcn = load_pretrained_FCN(subset_dataset_name).to(gpu_device_index)
          self.fcn.eval()
      if feature_extractor_type == 'rocket':
          self.rocket_kernels = generate_kernels(input_length, num_kernels=...)
      ...
      if use_fidelity_enhancer:
          self.fidelity_enhancer = FidelityEnhancer(self.ts_len, 1, config)
          ...
          self.fidelity_enhancer.load_state_dict(torch.load(ckpt_fname))
      else:
          self.fidelity_enhancer = nn.Identity()
      self.pca = PCA(n_components=2, random_state=0)
      self.z_train = self.compute_z('train')
      self.z_test = self.compute_z('test')
      z_train = remove_outliers(self.z_train)
      z_transform_pca = self.pca.fit_transform(z_train)
      self.xmin_pca, self.xmax_pca = np.min(z_transform_pca[:,0]), np.max(...)
      self.ymin_pca, self.ymax_pca = np.min(z_transform_pca[:,1]), np.max(...)
>>
    [load_pretrained_FCN] stands for loading the classifier and moving
    it to the device.  Where a method hands a batch to a model that
    already lives on [self.device] (the classifier, the sampler's
    output passed to the enhancer), the transfer [.to(self.device)] and
    the way back [.cpu()] keep the values and are part of that call. *)
Definition Evaluation_init (a : InitArgs) : Eff Evaluation :=
  let dataset_name := arg_subset_dataset_name a in
  dev <~ lift (torch_device E (arg_gpu_device_index a)) ;;
  bs <~ lift (config_evaluation_batch_size E (arg_config a)) ;;
  lift (py_assert (in_list (arg_feature_extractor_type a)
                           ["supervised_fcn"; "rocket"])) ;;~
  the_fcn <~ (if negb (arg_use_custom_dataset a)
              then (f <~ load_pretrained_FCN E dataset_name ;; ret (Some f))
              else ret None) ;;
  kernels <~ (if (arg_feature_extractor_type a =? "rocket")%string
              then (k <~ generate_kernels E (arg_input_length a)
                                          (arg_rocket_num_kernels a) ;;
                    ret (Some k))
              else ret None) ;;
  '(x_train, x_test, y_train, y_test) <~
     (if negb (arg_use_custom_dataset a)
      then DatasetImporterUCR E dataset_name true
      else DatasetImporterCustom E) ;;
  st2 <~ ExpStage2_load_from_checkpoint E
           ("saved_models/stage2-" ++ dataset_name ++ ".ckpt")
           dataset_name (arg_input_length a) (arg_config a)
           (arg_n_classes a) false (arg_feature_extractor_type a)
           (arg_use_custom_dataset a) ;;
  enh <~ (if arg_use_fidelity_enhancer a
          then (m <~ FidelityEnhancer_new E (Z.of_nat (width x_train)) 1
                                          (arg_config a) ;;
                sd <~ torch_load E ("saved_models/fidelity_enhancer-"
                                    ++ dataset_name ++ ".ckpt") ;;
                m' <~ lift (load_state_dict E m sd) ;;
                ret (Loaded m'))
          else ret Identity) ;;
  let self0 :=
    {| subset_dataset_name := dataset_name;
       device := dev;
       config := arg_config a;
       batch_size := bs;
       feature_extractor_type := arg_feature_extractor_type a;
       fcn := the_fcn;
       rocket_kernels := kernels;
       X_train := x_train; X_test := x_test;
       Y_train := y_train; Y_test := y_test;
       ts_len := Z.of_nat (width x_train);
       n_classes := Z.of_nat (length (nodup Z.eq_dec y_train));
       stage2 := st2;
       maskgit := stage2_maskgit E st2;
       stage1 := maskgit_stage1 E (stage2_maskgit E st2);
       fidelity_enhancer := enh;
       pca := PCA_new E;
       z_train := None; z_test := None;
       xmin_pca := None; xmax_pca := None;
       ymin_pca := None; ymax_pca := None |} in
  zs_train <~ lift (compute_z self0 "train") ;;
  zs_test <~ lift (compute_z self0 "test") ;;
  let z_filtered := remove_outliers zs_train in
  '(fitted, z_transform_pca) <~ lift (pca_fit_transform E (PCA_new E) z_filtered) ;;
  c0 <~ lift (column 0 z_transform_pca) ;;
  xmin <~ lift (np_min E c0) ;;
  xmax <~ lift (np_max E c0) ;;
  c1 <~ lift (column 1 z_transform_pca) ;;
  ymin <~ lift (np_min E c1) ;;
  ymax <~ lift (np_max E c1) ;;
  ret {| subset_dataset_name := dataset_name;
         device := dev;
         config := arg_config a;
         batch_size := bs;
         feature_extractor_type := arg_feature_extractor_type a;
         fcn := the_fcn;
         rocket_kernels := kernels;
         X_train := x_train; X_test := x_test;
         Y_train := y_train; Y_test := y_test;
         ts_len := Z.of_nat (width x_train);
         n_classes := Z.of_nat (length (nodup Z.eq_dec y_train));
         stage2 := st2;
         maskgit := stage2_maskgit E st2;
         stage1 := maskgit_stage1 E (stage2_maskgit E st2);
         fidelity_enhancer := enh;
         pca := fitted;
         z_train := Some zs_train; z_test := Some zs_test;
         xmin_pca := Some xmin; xmax_pca := Some xmax;
         ymin_pca := Some ymin; ymax_pca := Some ymax |}.

End EvaluationClass.

Arguments Evaluation : clear implicits.
Arguments InitArgs : clear implicits.
Arguments Enhancer : clear implicits.

(** The same object with another [batch_size] (the configuration entry
    [evaluation.batch_size]); nothing else changes. *)
Definition with_batch_size {E : Env} (b : Z) (self : Evaluation E) : Evaluation E :=
  {| subset_dataset_name := subset_dataset_name self;
     device := device self;
     config := config self;
     batch_size := b;
     feature_extractor_type := feature_extractor_type self;
     fcn := fcn self;
     rocket_kernels := rocket_kernels self;
     X_train := X_train self; X_test := X_test self;
     Y_train := Y_train self; Y_test := Y_test self;
     ts_len := ts_len self;
     n_classes := n_classes self;
     stage2 := stage2 self;
     maskgit := maskgit self;
     stage1 := stage1 self;
     fidelity_enhancer := fidelity_enhancer self;
     pca := pca self;
     z_train := z_train self; z_test := z_test self;
     xmin_pca := xmin_pca self; xmax_pca := xmax_pca self;
     ymin_pca := ymin_pca self; ymax_pca := ymax_pca self |}.

(** The per-slice extractor treats the rows of a slice one by one: on
    every non-empty slice with the trailing shape of [X] it returns the
    results of a per-row function [g], in order (and fails where [g]
    first fails). *)
Definition rowwise_on {E : Env} (self : Evaluation E) (X : ndarray3)
    (g : list series -> result (list float)) : Prop :=
  forall rs, rs <> [] ->
    _extract_feature_representations self (Array3 (chans X) (width X) rs) = mapM g rs.

(** The single-channel batch made of the first channel of every sample. *)
Definition first_channels (x : ndarray3) : ndarray3 :=
  Array3 1 (width x) (map (fun smp => [nth 0 smp []]) (rows3 x)).

(* ================================================================= *)
(** ** Visual diagnostics *)

(** [l[i]] for an integer index: a negative index counts from the end,
    an index outside the sequence raises [IndexError]. *)
Definition py_index {A : Type} (l : list A) (i : Z) : result A :=
  let len := Z.of_nat (length l) in
  let j := if i <? 0 then i + len else i in
  if (0 <=? j) && (j <? len)
  then match nth_error l (Z.to_nat j) with
       | Some v => Ok v
       | None => Err IndexError
       end
  else Err IndexError.

(** [X[i, 0, :]] *)
Definition index_i0 (x : ndarray3) (i : Z) : result series :=
  smp <- py_index (rows3 x) i ;;
  match chans x with
  | O => Err IndexError
  | S _ => Ok (nth 0 smp [])
  end.

(** [Z[ind]] for an array of indices. *)
Definition take_rows (z : ndarray2) (ind : list Z) : result ndarray2 :=
  mapM (py_index z) ind.

(** The literal [0.02] as a binary64 value. *)
Definition float_0_02 : float := S754_finite false 5764607523034235 (-58).

Section Diagnostics.

Context {E : Env}.

Local Abbreviation Eff := (M (World E)).

(** [wandb.log({key: wandb.Image(plt)})]: the image is built, then sent. *)
Definition wandb_log_figure (key : string) : Eff unit :=
  img <~ wandb_Image E ;;
  wandb_log E key img.

(** [for i in sample_ind: ax.plot(X[i, 0, :], alpha=alpha, color='C0')] *)
Definition plot_samples (ax : Axes E) (X : ndarray3) (sample_ind : list Z)
    (alpha : float) : Eff unit :=
  forM_ (fun i => s <~ lift (index_i0 X i) ;; axes_plot E ax s alpha) sample_ind.

(** The statements of [log_visual_inspection] before the telemetry call. *)
Definition log_visual_inspection_figure (X1 X2 : ndarray3) (title : string)
    (ylim : float * float) (n_plot_samples : Z) (alpha : float) : Eff unit :=
  sample_ind <~ np_random_randint E 0 (shape0 X1) n_plot_samples ;;
  '(ax0, ax1) <~ plt_subplots E 2 1 ;;
  plt_suptitle E title ;;~
  plot_samples ax0 X1 sample_ind alpha ;;~
  axes_set_ylim E ax0 (fst ylim) (snd ylim) ;;~
  sample_ind <~ np_random_randint E 0 (shape0 X2) n_plot_samples ;;
  plot_samples ax1 X2 sample_ind alpha ;;~
  axes_set_ylim E ax1 (fst ylim) (snd ylim) ;;~
  plt_tight_layout E.

(**
<<
  def log_visual_inspection(self, X1, X2, title, ylim=(-5, 5),
                            n_plot_samples=200, alpha=0.1):
      sample_ind = np.random.randint(0, X1.shape[0], n_plot_samples)
      fig, axes = plt.subplots(2, 1, figsize=(4, 4))
      plt.suptitle(title)
      for i in sample_ind:
          axes[0].plot(X1[i, 0, :], alpha=alpha, color='C0')
      axes[0].set_ylim( *ylim )
      sample_ind = np.random.randint(0, X2.shape[0], n_plot_samples)
      for i in sample_ind:
          axes[1].plot(X2[i, 0, :], alpha=alpha, color='C0')
      axes[1].set_ylim( *ylim )
      plt.tight_layout()
      wandb.log({f"visual comp ({title})": wandb.Image(plt)})
      plt.close()
>>
    There is no [try] in the method. *)
Definition log_visual_inspection (self : Evaluation E) (X1 X2 : ndarray3)
    (title : string) (ylim : float * float) (n_plot_samples : Z)
    (alpha : float) : Eff unit :=
  log_visual_inspection_figure X1 X2 title ylim n_plot_samples alpha ;;~
  wandb_log_figure ("visual comp (" ++ title ++ ")") ;;~
  plt_close E.

(** One turn of the loop of [log_pca]. *)
Definition log_pca_scatter (self : Evaluation E) (n_plot_samples : Z)
    (Zl : ndarray2 * string) : Eff unit :=
  let (Z, label) := Zl in
  ind <~ np_random_choice E (Z.of_nat (length Z)) n_plot_samples ;;
  Zi <~ lift (take_rows Z ind) ;;
  Z_embed <~ lift (pca_transform E (pca self) Zi) ;;
  c0 <~ lift (column 0 Z_embed) ;;
  c1 <~ lift (column 1 Z_embed) ;;
  plt_scatter E c0 c1 None (Some label) ;;~
  xmax <~ lift (getattr (xmax_pca self)) ;;
  xmin <~ lift (getattr (xmin_pca self)) ;;
  let xpad := float_mul E (float_sub E xmax xmin) float_0_02 in
  ymax <~ lift (getattr (ymax_pca self)) ;;
  ymin <~ lift (getattr (ymin_pca self)) ;;
  let ypad := float_mul E (float_sub E ymax ymin) float_0_02 in
  plt_xlim E (float_sub E xmin xpad) (float_add E xmax xpad) ;;~
  plt_ylim E (float_sub E ymin ypad) (float_add E ymax ypad).

(** The statements of [log_pca] before the telemetry call. *)
Definition log_pca_figure (self : Evaluation E) (Zs : list ndarray2)
    (labels : list string) (n_plot_samples : Z) : Eff unit :=
  lift (py_assert (length Zs =? length labels)%nat) ;;~
  plt_figure E ;;~
  forM_ (log_pca_scatter self n_plot_samples) (combine Zs labels) ;;~
  plt_legend E ;;~
  plt_tight_layout E.

(**
<<
  def log_pca(self, Zs, labels, n_plot_samples=1000):
      assert len(Zs) == len(labels)
      plt.figure(figsize=(4, 4))
      for Z, label in zip(Zs, labels):
          ind = np.random.choice(range(Z.shape[0]), size=n_plot_samples,
                                 replace=True)
          Z_embed = self.pca.transform(Z[ind])
          plt.scatter(Z_embed[:, 0], Z_embed[:, 1], alpha=0.1, label=label)
          xpad = (self.xmax_pca - self.xmin_pca) * 0.02
          ypad = (self.ymax_pca - self.ymin_pca) * 0.02
          plt.xlim(self.xmin_pca-xpad, self.xmax_pca+xpad)
          plt.ylim(self.ymin_pca-ypad, self.ymax_pca+ypad)
      plt.legend(loc='upper right')
      plt.tight_layout()
      wandb.log({f"PCA on Z ({labels})": wandb.Image(plt)})
      plt.close()
>>
*)
Definition log_pca (self : Evaluation E) (Zs : list ndarray2)
    (labels : list string) (n_plot_samples : Z) : Eff unit :=
  log_pca_figure self Zs labels n_plot_samples ;;~
  wandb_log_figure ("PCA on Z (" ++ py_repr E labels ++ ")") ;;~
  plt_close E.

(** [np.array(['C0'] * len(a) + ['C1'] * len(b))] *)
Definition tsne_labels (a b : list Z) : list string :=
  repeat "C0" (length a) ++ repeat "C1" (length b).

(** The statements of [log_tsne] before its first telemetry call; the
    two index samples are used again for the second plot. *)
Definition log_tsne_data_figure (self : Evaluation E) (n_plot_samples : Z)
    (X_gen : ndarray3) : Eff (list Z * list Z) :=
  X_gen <~ lift (F_interpolate E X_gen (Z.of_nat (width (X_test self)))) ;;
  sample_ind_test <~ np_random_randint E 0 (shape0 (X_test self)) n_plot_samples ;;
  sample_ind_gen <~ np_random_randint E 0 (shape0 X_gen) n_plot_samples ;;
  xa <~ lift (squeeze_take E (X_test self) sample_ind_test) ;;
  xb <~ lift (squeeze_take E X_gen sample_ind_gen) ;;
  let X := np_squeeze E (xa ++ xb) in
  let labels := tsne_labels sample_ind_test sample_ind_gen in
  X_embedded <~ tsne_fit_transform E X ;;
  plt_figure E ;;~
  c0 <~ lift (column 0 X_embedded) ;;
  c1 <~ lift (column 1 X_embedded) ;;
  plt_scatter E c0 c1 (Some labels) None ;;~
  plt_tight_layout E ;;~
  ret (sample_ind_test, sample_ind_gen).

(** The statements between the two telemetry calls of [log_tsne]. *)
Definition log_tsne_latent_figure (z_test z_gen : ndarray2)
    (sample_ind_test sample_ind_gen : list Z) : Eff unit :=
  za <~ lift (take_rows z_test sample_ind_test) ;;
  zb <~ lift (take_rows z_gen sample_ind_gen) ;;
  let Z := np_squeeze E (za ++ zb) in
  let labels := tsne_labels sample_ind_test sample_ind_gen in
  Z_embedded <~ tsne_fit_transform E Z ;;
  plt_figure E ;;~
  c0 <~ lift (column 0 Z_embedded) ;;
  c1 <~ lift (column 1 Z_embedded) ;;
  plt_scatter E c0 c1 (Some labels) None ;;~
  plt_tight_layout E.

(**
<<
  def log_tsne(self, n_plot_samples, X_gen, z_test, z_gen):
      X_gen = F.interpolate(X_gen, size=self.X_test.shape[-1], ...)
      X_gen = X_gen.cpu().numpy()
      sample_ind_test = np.random.randint(0, self.X_test.shape[0], n_plot_samples)
      sample_ind_gen = np.random.randint(0, X_gen.shape[0], n_plot_samples)
      X = np.concatenate((self.X_test.squeeze()[sample_ind_test],
                          X_gen.squeeze()[sample_ind_gen]), axis=0).squeeze()
      labels = np.array(['C0'] * len(sample_ind_test) + ['C1'] * len(sample_ind_gen))
      X_embedded = TSNE(...).fit_transform(X)
      plt.figure(figsize=(4, 4))
      plt.scatter(X_embedded[:, 0], X_embedded[:, 1], c=labels, alpha=0.1)
      plt.tight_layout()
      wandb.log({"TNSE-data_space": wandb.Image(plt)})
      plt.close()
      Z = np.concatenate((z_test[sample_ind_test], z_gen[sample_ind_gen]),
                         axis=0).squeeze()
      labels = ...
      Z_embedded = TSNE(...).fit_transform(Z)
      plt.figure(figsize=(4, 4))
      plt.scatter(Z_embedded[:, 0], Z_embedded[:, 1], c=labels, alpha=0.1)
      plt.tight_layout()
      wandb.log({"TSNE-latent_space": wandb.Image(plt)})
      plt.close()
>>
*)
Definition log_tsne (self : Evaluation E) (n_plot_samples : Z)
    (X_gen : ndarray3) (z_test z_gen : ndarray2) : Eff unit :=
  '(sample_ind_test, sample_ind_gen) <~
     log_tsne_data_figure self n_plot_samples X_gen ;;
  wandb_log_figure "TNSE-data_space" ;;~
  plt_close E ;;~
  log_tsne_latent_figure z_test z_gen sample_ind_test sample_ind_gen ;;~
  wandb_log_figure "TSNE-latent_space" ;;~
  plt_close E.

End Diagnostics.

(* ================================================================= *)
(** ** A small concrete environment

    Used to run the methods on explicit data: every model is a unit
    value, the extractors process each row on its own (the features of a
    sample are its first channel), random indices are the low bound
    repeated, and the world counts the images that reached the telemetry
    sink.  With [sink_up = false] the sink refuses every call. *)

Module Demo.

Definition fl (m : positive) : float := S754_finite false m 0.

Definition float_of_nat (n : nat) : float :=
  match n with
  | O => S754_zero false
  | S k => fl (Pos.of_succ_nat k)
  end.

Definition first_channel (smp : list series) : list float := nth 0 smp [].

Definition head_or_raise (l : list float) : result float :=
  match l with
  | [] => Err ValueError
  | v :: _ => Ok v
  end.

Definition constant_indices (lo hi n : Z) : M nat (list Z) :=
  fun w => if lo <? hi then Ok (repeat lo (Z.to_nat n), w) else Err ValueError.

(** Device indices 0 to 7 exist; a negative index is refused by
    [torch.device], a larger one when a tensor is moved there. *)
Definition device_of_index (index : Z) : result Z :=
  if index <? 0 then Err RuntimeError else Ok index.

Definition move_to (dev : Z) (x : ndarray3) : result ndarray3 :=
  if dev <? 8 then Ok x else Err RuntimeError.

Definition sink (sink_up : bool) : M nat unit :=
  fun w => if sink_up then Ok (tt, S w)
           else Err (OtherError "wandb: connection refused").

(** Three train and two test samples, one channel of two values each. *)
Definition x_train : ndarray3 :=
  Array3 1 2 [ [[fl 1; fl 2]]; [[fl 3; fl 4]]; [[fl 5; fl 6]] ].

Definition x_test : ndarray3 :=
  Array3 1 2 [ [[fl 7; fl 8]]; [[fl 9; fl 10]] ].

Definition sampled (n : Z) : ndarray3 :=
  Array3 1 2 (map (fun i => [[float_of_nat (Z.to_nat i); fl 1]]) (py_range n)).

Definition env (sink_up : bool) : Env :=
  {| World := nat;
     Config := Z;
     Classifier := unit;
     Kernels := unit;
     Stage2 := unit;
     MaskGIT := unit;
     Stage1 := unit;
     FidelityEnhancer := unit;
     StateDict := unit;
     PCA := unit;
     Tokens := ndarray3;
     Axes := nat;
     Image := unit;
     Device := Z;
     config_evaluation_batch_size := fun c => Ok c;
     torch_device := device_of_index;
     tensor_to := move_to;
     torch_cat_empty_error := ValueError;
     to_float32 := fun x => x;
     softmax := fun r => r;
     tensor_add := fun a _ => Ok a;
     float_add := fun a _ => a;
     float_sub := fun a _ => a;
     float_mul := fun a _ => a;
     np_min := head_or_raise;
     np_max := head_or_raise;
     load_pretrained_FCN := fun _ => ret tt;
     fcn_forward := fun _ x _ => Ok (map first_channel (rows3 x));
     calculate_inception_score :=
       fun p => Ok (float_of_nat (length p), S754_zero false);
     generate_kernels := fun _ _ => ret tt;
     apply_kernels := fun x _ => Ok x;
     DatasetImporterUCR := fun _ _ => ret (x_train, x_test, [0; 1; 0], [1; 0]);
     DatasetImporterCustom := ret (x_train, x_test, [0; 1; 0], [1; 0]);
     ExpStage2_load_from_checkpoint := fun _ _ _ _ _ _ _ _ => ret tt;
     stage2_maskgit := fun s => s;
     maskgit_stage1 := fun m => m;
     unconditional_sample := fun _ n _ => ret (sampled n, sampled n, sampled n);
     conditional_sample := fun _ n _ _ => ret (sampled n, sampled n, sampled n);
     encode_to_z_q := fun _ x _ _ _ => ret x;
     decode_token_ind_to_timeseries := fun _ t _ => ret t;
     FidelityEnhancer_new := fun _ _ _ => ret tt;
     torch_load := fun _ => ret tt;
     load_state_dict := fun m _ => Ok m;
     fe_forward := fun _ x => ret x;
     fe_tau := fun _ => fl 1;
     F_interpolate := fun x _ => Ok x;
     PCA_new := tt;
     pca_fit_transform := fun _ z => Ok (tt, map (firstn 2) z);
     pca_transform := fun _ z => Ok (map (firstn 2) z);
     tsne_fit_transform := fun z => ret (map (firstn 2) z);
     np_random_randint := constant_indices;
     np_random_choice := fun n size => constant_indices 0 n size;
     squeeze_take := fun x ind => mapM (index_i0 x) ind;
     np_squeeze := fun z => z;
     py_repr := String.concat ", ";
     plt_subplots := fun _ _ => ret (0%nat, 1%nat);
     plt_suptitle := fun _ => ret tt;
     axes_plot := fun _ _ _ => ret tt;
     axes_set_ylim := fun _ _ _ => ret tt;
     plt_figure := ret tt;
     plt_scatter := fun _ _ _ _ => ret tt;
     plt_xlim := fun _ _ => ret tt;
     plt_ylim := fun _ _ => ret tt;
     plt_legend := ret tt;
     plt_tight_layout := ret tt;
     plt_close := ret tt;
     wandb_Image := ret tt;
     wandb_log := fun _ _ => sink sink_up |}.

(** [Evaluation(name, 2, 2, 0, config)] with the given switches. *)
Definition args (sink_up : bool) (b : Z) (use_fe : bool) (extractor : string)
    (custom : bool) : InitArgs (env sink_up) :=
  {| arg_subset_dataset_name := "Demo";
     arg_input_length := 2;
     arg_n_classes := 2;
     arg_gpu_device_index := 0;
     arg_config := (b : Config (env sink_up));
     arg_use_fidelity_enhancer := use_fe;
     arg_feature_extractor_type := extractor;
     arg_rocket_num_kernels := 1000;
     arg_use_custom_dataset := custom |}.

(** The object [Evaluation_init] builds for the ['rocket'] extractor,
    written out. *)
Definition built (sink_up : bool) (b : Z) (use_fe custom : bool)
  : Evaluation (env sink_up) :=
  {| subset_dataset_name := "Demo";
     device := (0 : Device (env sink_up));
     config := (b : Config (env sink_up));
     batch_size := b;
     feature_extractor_type := "rocket";
     fcn := if custom then None else Some (tt : Classifier (env sink_up));
     rocket_kernels := Some (tt : Kernels (env sink_up));
     X_train := x_train; X_test := x_test;
     Y_train := [0; 1; 0]; Y_test := [1; 0];
     ts_len := 2;
     n_classes := 2;
     stage2 := tt;
     maskgit := tt;
     stage1 := tt;
     fidelity_enhancer :=
       if use_fe then @Loaded (env sink_up) tt else @Identity (env sink_up);
     pca := tt;
     z_train := Some [[fl 1; fl 2]; [fl 3; fl 4]; [fl 5; fl 6]];
     z_test := Some [[fl 7; fl 8]; [fl 9; fl 10]];
     xmin_pca := Some (fl 1); xmax_pca := Some (fl 1);
     ymin_pca := Some (fl 2); ymax_pca := Some (fl 2) |}.

(** Two samples of two channels each. *)
Definition two_channel_batch : ndarray3 :=
  Array3 2 2 [ [[fl 1; fl 2]; [fl 11; fl 12]];
               [[fl 3; fl 4]; [fl 13; fl 14]] ].

End Demo.

(* ================================================================= *)
(** ** Features of the reconstructions ([compute_z_rec]) *)

Section Reconstruction.

Context {E : Env}.

(** [self.stage1.forward(batch=(x, None), batch_idx=-1, return_x_rec=True)]
    on the batch moved to [self.device]: the transfer and the
    reconstruction by the stage-1 model, which can raise and can use the
    world. *)
Variable stage1_forward : Stage1 E -> ndarray3 -> M (World E) ndarray3.

(**
<<
  def compute_z_rec(self, kind):
      assert kind in ['train', 'test']
      if kind == 'train':
          X = self.X_train
      elif kind == 'test':
          X = self.X_test
      else:
          raise ValueError
      n_samples = X.shape[0]
      n_iters = n_samples // self.batch_size
      if n_samples % self.batch_size > 0:
          n_iters += 1
      zs = []
      for i in range(n_iters):
          s = slice(i * self.batch_size, (i + 1) * self.batch_size)
          x = X[s]
          x = torch.from_numpy(x).float().to(self.device)
          x_rec = self.stage1.forward(batch=(x, None), batch_idx=-1,
                      return_x_rec=True).cpu().detach().numpy().astype(float)
          z_t = self._extract_feature_representations(x_rec)
          zs.append(z_t)
      zs = np.concatenate(zs, axis=0)
      return zs
>>
*)
Definition compute_z_rec (self : Evaluation E) (kind : string)
  : M (World E) ndarray2 :=
  X <~ lift (select_split self kind) ;;
  let n_samples := shape0 X in
  n_iters <~ lift (n_iters_of n_samples (batch_size self)) ;;
  zs <~ forM (fun i =>
       let lo := i * batch_size self in
       let hi := (i + 1) * batch_size self in
       let x := to_float32 E (slice3 lo hi X) in
       x_rec <~ stage1_forward (stage1 self) x ;;
       lift (_extract_feature_representations self x_rec))
     (py_range n_iters) ;;
  lift (np_concatenate zs).

End Reconstruction.

(** Stand-ins for the examples: a reconstruction that swaps the two
    values of every channel, and an enhancer-like map on samples. *)
Module DemoRec.

Definition swap_sample (smp : list series) : list series :=
  map (fun ch => rev ch) smp.

Definition stage1_forward (sink_up : bool)
  : Stage1 (Demo.env sink_up) -> ndarray3 -> M nat ndarray3 :=
  fun _ x => ret (Array3 (chans x) (width x) (map swap_sample (rows3 x))).

End DemoRec.

(** A host on which device 9 does not exist: the arguments of
    [Evaluation(name, 2, 2, 9, config, use_custom_dataset=True)] and the
    object the constructor builds from them; and the arguments of
    [Evaluation(name, 2, 2, -1, config)], an index [torch.device]
    refuses. *)
Module DemoDevice.

Definition refused_args : InitArgs (Demo.env true) :=
  {| arg_subset_dataset_name := "Demo";
     arg_input_length := 2;
     arg_n_classes := 2;
     arg_gpu_device_index := -1;
     arg_config := (2 : Config (Demo.env true));
     arg_use_fidelity_enhancer := false;
     arg_feature_extractor_type := "fcn";
     arg_rocket_num_kernels := 1000;
     arg_use_custom_dataset := false |}.

Definition args : InitArgs (Demo.env true) :=
  {| arg_subset_dataset_name := "Demo";
     arg_input_length := 2;
     arg_n_classes := 2;
     arg_gpu_device_index := 9;
     arg_config := (2 : Config (Demo.env true));
     arg_use_fidelity_enhancer := false;
     arg_feature_extractor_type := "rocket";
     arg_rocket_num_kernels := 1000;
     arg_use_custom_dataset := true |}.

Definition built : Evaluation (Demo.env true) :=
  {| subset_dataset_name := "Demo";
     device := (9 : Device (Demo.env true));
     config := (2 : Config (Demo.env true));
     batch_size := 2;
     feature_extractor_type := "rocket";
     fcn := None;
     rocket_kernels := Some (tt : Kernels (Demo.env true));
     X_train := Demo.x_train; X_test := Demo.x_test;
     Y_train := [0; 1; 0]; Y_test := [1; 0];
     ts_len := 2;
     n_classes := 2;
     stage2 := tt;
     maskgit := tt;
     stage1 := tt;
     fidelity_enhancer := @Identity (Demo.env true);
     pca := tt;
     z_train := Some [[Demo.fl 1; Demo.fl 2]; [Demo.fl 3; Demo.fl 4];
                      [Demo.fl 5; Demo.fl 6]];
     z_test := Some [[Demo.fl 7; Demo.fl 8]; [Demo.fl 9; Demo.fl 10]];
     xmin_pca := Some (Demo.fl 1); xmax_pca := Some (Demo.fl 1);
     ymin_pca := Some (Demo.fl 2); ymax_pca := Some (Demo.fl 2) |}.

End DemoDevice.

(* ----------------------------------------------------------------- *)
(** *** Facts about the error monad *)

Lemma mapM_app {A B : Type} (f : A -> result B) (xs ys : list A) :
  mapM f (xs ++ ys) =
  (us <- mapM f xs ;; vs <- mapM f ys ;; Ok (us ++ vs)).
Proof.
  induction xs as [| x xs IH]; simpl.
  - destruct (mapM f ys); reflexivity.
  - destruct (f x) as [y|e]; simpl; [|reflexivity].
    rewrite IH. destruct (mapM f xs) as [us|e]; simpl; [|reflexivity].
    destruct (mapM f ys); reflexivity.
Qed.

Lemma mapM_map {A B C : Type} (g : A -> B) (f : B -> result C) (xs : list A) :
  mapM f (map g xs) = mapM (fun x => f (g x)) xs.
Proof.
  induction xs as [| x xs IH]; simpl; [reflexivity|].
  now rewrite IH.
Qed.

Lemma mapM_pure {A B : Type} (g : A -> B) (xs : list A) :
  mapM (fun x => Ok (g x)) xs = Ok (map g xs).
Proof.
  induction xs as [| x xs IH]; simpl; [reflexivity|].
  now rewrite IH.
Qed.

Lemma mapM_ext_in {A B : Type} (f g : A -> result B) (xs : list A) :
  (forall x, In x xs -> f x = g x) -> mapM f xs = mapM g xs.
Proof.
  induction xs as [| x xs IH]; intros H; simpl; [reflexivity|].
  rewrite (H x (or_introl eq_refl)), IH; [reflexivity|].
  intros y Hy. apply H. now right.
Qed.

Lemma mapM_length {A B : Type} (f : A -> result B) (xs : list A) (ys : list B) :
  mapM f xs = Ok ys -> length ys = length xs.
Proof.
  revert ys. induction xs as [| x xs IH]; simpl; intros ys H.
  - now inversion H.
  - destruct (f x); simpl in H; [|discriminate].
    destruct (mapM f xs) as [zs|]; simpl in H; [|discriminate].
    inversion H; subst; simpl. now rewrite (IH zs eq_refl).
Qed.

(** Mapping a row-wise function over the slices and flattening is the
    same as mapping it over the flattened rows, errors included. *)
Lemma mapM_rows_concat {A B : Type} (g : A -> result B) (parts : list (list A)) :
  (zs <- mapM (mapM g) parts ;; Ok (concat zs)) = mapM g (concat parts).
Proof.
  induction parts as [| p parts IH]; simpl; [reflexivity|].
  rewrite mapM_app, <- IH.
  destruct (mapM g p) as [us|e]; simpl; [|reflexivity].
  destruct (mapM (mapM g) parts) as [vs|e]; reflexivity.
Qed.

(* ----------------------------------------------------------------- *)
(** *** Facts about ranges and slices *)

Lemma py_range_length (n : Z) : length (py_range n) = Z.to_nat n.
Proof. unfold py_range. now rewrite length_map, length_seq. Qed.

Lemma py_range_nonpos (n : Z) : n <= 0 -> py_range n = [].
Proof.
  intros H. unfold py_range.
  replace (Z.to_nat n) with 0%nat by lia. reflexivity.
Qed.

Lemma py_range_succ (n : Z) : 0 <= n -> py_range (n + 1) = py_range n ++ [n].
Proof.
  intros H. unfold py_range.
  replace (Z.to_nat (n + 1)) with (S (Z.to_nat n)) by lia.
  rewrite seq_S, map_app. simpl. now rewrite Z2Nat.id.
Qed.

Lemma py_range_In (n i : Z) : In i (py_range n) <-> 0 <= i < n.
Proof.
  unfold py_range. rewrite in_map_iff. split.
  - intros [k [<- Hk]]. apply in_seq in Hk. lia.
  - intros H. exists (Z.to_nat i). split; [lia|]. apply in_seq. lia.
Qed.

(** For bounds that are not negative a slice is "the first [stop] rows
    without the first [start] rows". *)
Lemma py_slice_nonneg {A : Type} (start stop : Z) (l : list A) :
  0 <= start -> 0 <= stop ->
  py_slice start stop l = skipn (Z.to_nat start) (firstn (Z.to_nat stop) l).
Proof.
  intros Hs He. unfold py_slice, slice_bound.
  destruct (Z.ltb_spec start 0) as [?|_]; [lia|].
  destruct (Z.ltb_spec stop 0) as [?|_]; [lia|].
  rewrite skipn_firstn_comm.
  remember (Z.of_nat (length l)) as len eqn:Hlen.
  destruct (Z.le_gt_cases len start) as [Hle|Hgt].
  - (* the slice starts at or after the end *)
    rewrite (skipn_all2 (n := Z.to_nat start) l) by lia.
    rewrite (skipn_all2 (n := Z.to_nat (Z.min start len)) l) by lia.
    now rewrite !firstn_nil.
  - replace (Z.to_nat (Z.min start len)) with (Z.to_nat start) by lia.
    destruct (Z.le_gt_cases stop len) as [Hle'|Hgt'].
    + f_equal. lia.
    + rewrite !firstn_all2; [reflexivity| |]; rewrite length_skipn; lia.
Qed.

Lemma batch_slices_concat {A : Type} (k : nat) (b : Z) (l : list A) :
  0 < b ->
  concat (batch_slices (Z.of_nat k) b l) = firstn (Z.to_nat (Z.of_nat k * b)) l.
Proof.
  intros Hb. unfold batch_slices.
  induction k as [| k IH].
  - reflexivity.
  - replace (Z.of_nat (S k)) with (Z.of_nat k + 1) by lia.
    rewrite py_range_succ by lia.
    rewrite map_app, concat_app, IH. simpl. rewrite app_nil_r.
    rewrite py_slice_nonneg by nia.
    set (lo := Z.to_nat (Z.of_nat k * b)).
    set (hi := Z.to_nat ((Z.of_nat k + 1) * b)).
    assert (Hlh : (lo <= hi)%nat) by (unfold lo, hi; nia).
    rewrite <- (firstn_skipn lo (firstn hi l)) at 2.
    f_equal. rewrite firstn_firstn. f_equal. lia.
Qed.

Lemma batch_slices_length {A : Type} (k b : Z) (l : list A) :
  length (batch_slices k b l) = Z.to_nat k.
Proof. unfold batch_slices. now rewrite length_map, py_range_length. Qed.

Lemma batch_slices_nth {A : Type} (k b : Z) (l : list A) (i : nat) :
  0 < b -> (i < Z.to_nat k)%nat ->
  nth i (batch_slices k b l) [] =
  firstn (Z.to_nat b) (skipn (i * Z.to_nat b) l).
Proof.
  intros Hb Hi. unfold batch_slices, py_range.
  rewrite map_map.
  rewrite (nth_indep _ [] (py_slice (Z.of_nat 0 * b) ((Z.of_nat 0 + 1) * b) l))
    by (rewrite length_map, length_seq; lia).
  rewrite (map_nth (fun j => py_slice (Z.of_nat j * b) ((Z.of_nat j + 1) * b) l)).
  rewrite seq_nth by lia. simpl (0 + i)%nat.
  rewrite py_slice_nonneg by nia.
  rewrite skipn_firstn_comm. f_equal; [nia | f_equal; nia].
Qed.

(* ----------------------------------------------------------------- *)
(** *** Facts about the iteration count *)

Lemma ceil_div_bounds (n b : Z) :
  0 < b -> (ceil_div n b - 1) * b < n <= ceil_div n b * b.
Proof.
  intros Hb. unfold ceil_div.
  pose proof (Z.div_mod (- n) b ltac:(lia)) as Hdm.
  pose proof (Z.mod_pos_bound (- n) b Hb) as Hr.
  nia.
Qed.

Lemma ceil_div_pos (n b : Z) : 0 < b -> 0 < n -> 1 <= ceil_div n b.
Proof. intros Hb Hn. pose proof (ceil_div_bounds n b Hb). nia. Qed.

Lemma ceil_div_unique (n b k : Z) :
  0 < b -> (k - 1) * b < n <= k * b -> k = ceil_div n b.
Proof. intros Hb Hk. pose proof (ceil_div_bounds n b Hb). nia. Qed.

Lemma n_iters_of_zero (n : Z) : n_iters_of n 0 = Err ZeroDivisionError.
Proof. reflexivity. Qed.

Lemma n_iters_of_pos (n b : Z) : 0 < b -> n_iters_of n b = Ok (ceil_div n b).
Proof.
  intros Hb. unfold n_iters_of, py_floordiv, py_mod.
  destruct (Z.eqb_spec b 0) as [?|_]; [lia|]. simpl. f_equal.
  pose proof (Z.div_mod n b ltac:(lia)) as Hdm.
  pose proof (Z.mod_pos_bound n b Hb) as Hr.
  apply ceil_div_unique; [assumption|].
  destruct (Z.gtb_spec (n mod b) 0); nia.
Qed.

Lemma n_iters_of_neg (n b : Z) :
  b < 0 -> 0 <= n -> exists k, n_iters_of n b = Ok k /\ k <= 0.
Proof.
  intros Hb Hn. unfold n_iters_of, py_floordiv, py_mod.
  destruct (Z.eqb_spec b 0) as [?|_]; [lia|]. simpl.
  pose proof (Z.div_mod n b ltac:(lia)) as Hdm.
  pose proof (Z.mod_neg_bound n b Hb) as Hr.
  destruct (Z.gtb_spec (n mod b) 0); [lia|].
  eexists; split; [reflexivity|]. nia.
Qed.

(** The loop returns only for a positive batch size and a positive row
    count: a zero batch size divides by zero, and otherwise the list
    handed to the concatenation is empty. *)
Lemma n_iters_of_ge_1 (n b k : Z) :
  0 <= n -> n_iters_of n b = Ok k -> 1 <= k -> 0 < b /\ 0 < n.
Proof.
  intros Hn Hk Hk1.
  destruct (Z.lt_trichotomy b 0) as [Hb|[Hb|Hb]].
  - destruct (n_iters_of_neg n b Hb Hn) as [k' [E Hk']]. rewrite E in Hk.
    inversion Hk; subst. lia.
  - subst b. rewrite n_iters_of_zero in Hk. discriminate.
  - rewrite (n_iters_of_pos n b Hb) in Hk. inversion Hk; subst.
    pose proof (ceil_div_bounds n b Hb). split; [assumption|nia].
Qed.

(** With a positive batch size the loop's slices put end to end are the
    whole input. *)
Lemma batch_slices_cover {A : Type} (b : Z) (l : list A) :
  0 < b ->
  concat (batch_slices (ceil_div (Z.of_nat (length l)) b) b l) = l.
Proof.
  intros Hb.
  pose proof (ceil_div_bounds (Z.of_nat (length l)) b Hb) as Hc.
  assert (Hk : 0 <= ceil_div (Z.of_nat (length l)) b) by nia.
  rewrite <- (Z2Nat.id _ Hk) at 1.
  rewrite batch_slices_concat by assumption.
  rewrite Z2Nat.id by assumption.
  apply firstn_all2. lia.
Qed.

(* ----------------------------------------------------------------- *)
(** *** The batching loop *)

Lemma for_range_slices {A B : Type} (f : list A -> result B) (k b : Z) (l : list A) :
  for_range k (fun i => f (py_slice (i * b) ((i + 1) * b) l)) =
  mapM f (batch_slices k b l).
Proof. unfold for_range, batch_slices. now rewrite mapM_map. Qed.

(** Sizes of the slices: all but the last have [b] rows, the last has
    between 1 and [b]. *)
Lemma batch_slices_sizes {A : Type} (b : Z) (l : list A) (i : nat) :
  0 < b ->
  let k := ceil_div (Z.of_nat (length l)) b in
  (i < Z.to_nat k)%nat ->
  ((S i < Z.to_nat k)%nat -> length (nth i (batch_slices k b l) []) = Z.to_nat b) /\
  (1 <= length (nth i (batch_slices k b l) []) <= Z.to_nat b)%nat.
Proof.
  intros Hb k Hi.
  pose proof (ceil_div_bounds (Z.of_nat (length l)) b Hb) as Hc. fold k in Hc.
  rewrite batch_slices_nth by assumption.
  rewrite length_firstn, length_skipn. split; [intros HS|]; nia.
Qed.

Lemma batch_slices_nonempty {A : Type} (b : Z) (l s : list A) :
  0 < b -> In s (batch_slices (ceil_div (Z.of_nat (length l)) b) b l) -> s <> [].
Proof.
  intros Hb Hin. apply (In_nth _ _ []) in Hin. destruct Hin as [i [Hi <-]].
  rewrite batch_slices_length in Hi.
  destruct (batch_slices_sizes b l i Hb Hi) as [_ Hsz].
  intros Hnil. rewrite Hnil in Hsz. simpl in Hsz. lia.
Qed.

Lemma np_concatenate_after_mapM {A B C : Type} (f : A -> result (list B))
    (xs : list A) (k : list B -> result C) :
  xs <> [] ->
  (zs <- mapM f xs ;; r <- np_concatenate zs ;; k r) =
  (zs <- mapM f xs ;; k (concat zs)).
Proof.
  intros Hne. destruct (mapM f xs) as [zs|e] eqn:Hm; simpl; [|reflexivity].
  apply mapM_length in Hm. destruct zs as [|z zs]; [|reflexivity].
  destruct xs; [contradiction|discriminate].
Qed.

(** The loop of [compute_z], [compute_z_gen] (and of the other methods
    that copy it) with a row-wise body: its result is the per-row function
    mapped over the whole input, whatever the positive batch size. *)
Lemma batch_loop_rowwise {A B : Type} (f : list A -> result (list B))
    (g : A -> result B) (b : Z) (l : list A) :
  0 < b -> l <> [] ->
  (forall rs, rs <> [] -> f rs = mapM g rs) ->
  (n_iters <- n_iters_of (Z.of_nat (length l)) b ;;
   zs <- for_range n_iters (fun i => f (py_slice (i * b) ((i + 1) * b) l)) ;;
   np_concatenate zs) = mapM g l.
Proof.
  intros Hb Hl Hf.
  rewrite (n_iters_of_pos _ b Hb). cbn [bind].
  rewrite for_range_slices.
  rewrite (mapM_ext_in f (mapM g)).
  2:{ intros s Hs. apply Hf. eapply batch_slices_nonempty; eassumption. }
  set (k := ceil_div (Z.of_nat (length l)) b).
  assert (Hk : 1 <= k).
  { apply ceil_div_pos; [assumption|]. destruct l; [contradiction|simpl; lia]. }
  assert (Hne : batch_slices k b l <> []).
  { intros Hnil. apply (f_equal (@length _)) in Hnil.
    rewrite batch_slices_length in Hnil. simpl in Hnil. lia. }
  transitivity (zs <- mapM (mapM g) (batch_slices k b l) ;; Ok (concat zs)).
  - pose proof (np_concatenate_after_mapM (mapM g) (batch_slices k b l)
                  (fun r => Ok r) Hne) as Hc.
    etransitivity; [|exact Hc].
    destruct (mapM (mapM g) (batch_slices k b l)); simpl; [|reflexivity].
    now destruct (np_concatenate a).
  - rewrite mapM_rows_concat. unfold k. now rewrite batch_slices_cover.
Qed.

(** With no rows, or with a batch size that is not positive, the loop
    raises: there is nothing to concatenate, or the division fails. *)
Lemma batch_loop_raises {B : Type} (body : Z -> result (list B)) (n b : Z) :
  0 <= n -> (b <= 0 \/ n = 0) ->
  exists e, (n_iters <- n_iters_of n b ;;
             zs <- for_range n_iters body ;;
             np_concatenate zs) = Err e.
Proof.
  intros Hn Hc.
  destruct (n_iters_of n b) as [k|e] eqn:Hk; [|eexists; reflexivity].
  assert (k <= 0).
  { destruct (Z.le_gt_cases k 0) as [?|Hgt]; [assumption|].
    destruct (n_iters_of_ge_1 n b k Hn Hk ltac:(lia)). lia. }
  cbn [bind]. unfold for_range. rewrite py_range_nonpos by assumption.
  simpl. eexists; reflexivity.
Qed.

Lemma batch_loop_ok_inv {B : Type} (body : Z -> result (list B)) (n b : Z)
    (r : list B) :
  0 <= n ->
  (n_iters <- n_iters_of n b ;;
   zs <- for_range n_iters body ;;
   np_concatenate zs) = Ok r ->
  0 < b /\ 0 < n.
Proof.
  intros Hn Hr.
  destruct (Z.le_gt_cases b 0) as [Hb|Hb].
  - destruct (batch_loop_raises body n b Hn (or_introl Hb)) as [e He].
    rewrite He in Hr. discriminate.
  - split; [assumption|].
    destruct (Z.eq_dec n 0) as [Hz|Hz]; [|lia].
    destruct (batch_loop_raises body n b Hn (or_intror Hz)) as [e He].
    rewrite He in Hr. discriminate.
Qed.

(* ----------------------------------------------------------------- *)
(** *** [compute_z] and [compute_z_gen] *)

Section ComputeZ.

Context {E : Env}.
Implicit Types (self : Evaluation E) (X : ndarray3).

Lemma shape0_nonneg X : 0 <= shape0 X.
Proof. unfold shape0. lia. Qed.

Lemma extract_with_batch_size self b x :
  _extract_feature_representations (with_batch_size b self) x =
  _extract_feature_representations self x.
Proof. reflexivity. Qed.

Lemma select_split_with_batch_size self b kind :
  select_split (with_batch_size b self) kind = select_split self kind.
Proof. reflexivity. Qed.

(** [compute_z] is the loop of [compute_z_gen] on the selected split. *)
Lemma compute_z_as_gen self kind :
  compute_z self kind = (X <- select_split self kind ;; compute_z_gen self X).
Proof. reflexivity. Qed.

Lemma compute_z_gen_rowwise self X g :
  0 < batch_size self -> rows3 X <> [] -> rowwise_on self X g ->
  compute_z_gen self X = mapM g (rows3 X).
Proof.
  intros Hb Hne Hg. unfold compute_z_gen, shape0, slice3.
  apply (batch_loop_rowwise
           (fun rs => _extract_feature_representations self
                        (Array3 (chans X) (width X) rs)) g); assumption.
Qed.

Lemma compute_z_gen_empty self X :
  rows3 X = [] -> exists e, compute_z_gen self X = Err e.
Proof.
  intros Hnil. unfold compute_z_gen.
  apply batch_loop_raises; [apply shape0_nonneg|].
  right. unfold shape0. now rewrite Hnil.
Qed.

Lemma compute_z_gen_ok_inv self X z :
  compute_z_gen self X = Ok z -> 0 < batch_size self /\ rows3 X <> [].
Proof.
  intros H. unfold compute_z_gen in H.
  apply batch_loop_ok_inv in H; [|apply shape0_nonneg].
  destruct H as [Hb Hn]. split; [assumption|].
  intros Hnil. unfold shape0 in Hn. rewrite Hnil in Hn. simpl in Hn. lia.
Qed.

End ComputeZ.

(* ----------------------------------------------------------------- *)
(** *** Inversion of the effect monad *)

Lemma bindM_Ok_inv {W A B : Type} (m : M W A) (k : A -> M W B) (w : W)
    (r : B * W) :
  bindM m k w = Ok r -> exists a w1, m w = Ok (a, w1) /\ k a w1 = Ok r.
Proof.
  unfold bindM. destruct (m w) as [[a w1]|e]; [|discriminate].
  intros H. now exists a, w1.
Qed.

Lemma bindM_Ok {W A B : Type} (m : M W A) (k : A -> M W B) (w w1 : W) (a : A) :
  m w = Ok (a, w1) -> bindM m k w = k a w1.
Proof. unfold bindM. now intros ->. Qed.

Lemma bindM_Err {W A B : Type} (m : M W A) (k : A -> M W B) (w : W) (e : exn) :
  m w = Err e -> bindM m k w = Err e.
Proof. unfold bindM. now intros ->. Qed.

Lemma lift_Ok_inv {W A : Type} (r : result A) (w w1 : W) (a : A) :
  lift r w = Ok (a, w1) -> r = Ok a /\ w1 = w.
Proof. unfold lift. destruct r; [|discriminate]. intros H. now inversion H. Qed.

Lemma lift_Ok {W A : Type} (r : result A) (w : W) (a : A) :
  r = Ok a -> lift r w = Ok (a, w).
Proof. now intros ->. Qed.

Lemma lift_Err {W A : Type} (r : result A) (w : W) (e : exn) :
  r = Err e -> lift (W := W) r w = Err e.
Proof. now intros ->. Qed.

Lemma ret_Ok_inv {W A : Type} (a b : A) (w w1 : W) :
  ret a w = Ok (b, w1) -> b = a /\ w1 = w.
Proof. unfold ret. intros H. now inversion H. Qed.

Lemma bind_Ok_inv {A B : Type} (m : result A) (k : A -> result B) (r : B) :
  bind m k = Ok r -> exists a, m = Ok a /\ k a = Ok r.
Proof. destruct m as [a|e]; [|discriminate]. intros H. now exists a. Qed.

Tactic Notation "inv_bindM" hyp(H) "as" ident(a) ident(w) ident(Hm) :=
  apply bindM_Ok_inv in H; destruct H as (a & w & Hm & H).

Ltac inv_lift H :=
  let Hw := fresh "Hw" in
  apply lift_Ok_inv in H; destruct H as [H Hw]; try subst.

(* ----------------------------------------------------------------- *)
(** *** Loops that raise in their first turn, loops that return their input *)

Lemma py_range_cons (k : Z) :
  1 <= k -> py_range k = 0 :: map Z.of_nat (seq 1 (Z.to_nat k - 1)).
Proof.
  intros Hk. unfold py_range.
  replace (Z.to_nat k) with (S (Z.to_nat k - 1)) at 1 by lia. reflexivity.
Qed.

Lemma for_range_first_raises {B : Type} (body : Z -> result B) (k : Z) (e : exn) :
  1 <= k -> body 0 = Err e -> for_range k body = Err e.
Proof.
  intros Hk Hb. unfold for_range. rewrite py_range_cons by assumption.
  simpl. now rewrite Hb.
Qed.

Lemma forM_first_raises {W B : Type} (body : Z -> M W B) (k : Z) (w : W) (e : exn) :
  1 <= k -> body 0 w = Err e -> forM body (py_range k) w = Err e.
Proof.
  intros Hk Hb. rewrite py_range_cons by assumption.
  simpl. now apply bindM_Err.
Qed.

Lemma forM_ret {W A B : Type} (f : A -> B) (xs : list A) (w : W) :
  forM (fun x => ret (f x)) xs w = Ok (map f xs, w).
Proof.
  induction xs as [|x xs IH]; [reflexivity|].
  simpl. unfold bindM at 1. unfold ret at 1. unfold bindM. now rewrite IH.
Qed.

Lemma forM_ext {W A B : Type} (f g : A -> M W B) (xs : list A) (w : W) :
  (forall x w', f x w' = g x w') -> forM f xs w = forM g xs w.
Proof.
  intros Hfg. revert w. induction xs as [|x xs IH]; intros w; [reflexivity|].
  simpl. unfold bindM. rewrite Hfg. destruct (g x w) as [[y w1]|e]; [|reflexivity].
  now rewrite IH.
Qed.

(** In [sample] the count is written with [!= 0]; for a positive batch
    size it is the same ceiling. *)
Lemma num_batches_of_pos (n b : Z) : 0 < b -> num_batches_of n b = Ok (ceil_div n b).
Proof.
  intros Hb. unfold num_batches_of, py_floordiv, py_mod.
  destruct (Z.eqb_spec b 0) as [?|_]; [lia|]. simpl. f_equal.
  pose proof (Z.div_mod n b ltac:(lia)) as Hdm.
  pose proof (Z.mod_pos_bound n b Hb) as Hr.
  apply ceil_div_unique; [assumption|].
  destruct (Z.eqb_spec (n mod b) 0); simpl; nia.
Qed.

Lemma ceil_div_zero (b : Z) : ceil_div 0 b = 0.
Proof. unfold ceil_div. now destruct b. Qed.

(* ----------------------------------------------------------------- *)
(** *** What [__init__] establishes *)

Section Construction.

Context {E : Env}.
Implicit Types (self : Evaluation E) (a : InitArgs E) (X : ndarray3).

Lemma select_split_train self : select_split self "train" = Ok (X_train self).
Proof. reflexivity. Qed.

Lemma select_split_test self : select_split self "test" = Ok (X_test self).
Proof. reflexivity. Qed.

(** [select_split] either returns one of the two splits or fails the
    assertion. *)
Lemma select_split_cases self kind :
  (in_list kind ["train"; "test"] = true /\
   (select_split self kind = Ok (X_train self) \/
    select_split self kind = Ok (X_test self))) \/
  (in_list kind ["train"; "test"] = false /\
   select_split self kind = Err AssertionError).
Proof.
  unfold select_split, in_list. simpl.
  destruct (String.eqb kind "train") eqn:Ht; simpl.
  - left. split; [reflexivity|]. now left.
  - destruct (String.eqb kind "test") eqn:Hs; simpl.
    + left. split; [reflexivity|]. now right.
    + right. now split.
Qed.

(** Without [self.fcn] the ['supervised_fcn'] extraction raises
    [AttributeError], whatever the batch. *)
Lemma extract_without_fcn self x :
  fcn self = None -> feature_extractor_type self = "supervised_fcn" ->
  _extract_feature_representations self x = Err AttributeError.
Proof.
  intros Hf Ht. unfold _extract_feature_representations.
  now rewrite Ht, Hf.
Qed.

Lemma compute_z_gen_first_raises self X e :
  0 < batch_size self -> rows3 X <> [] ->
  (forall x, _extract_feature_representations self x = Err e) ->
  compute_z_gen self X = Err e.
Proof.
  intros Hb Hne Hx. unfold compute_z_gen.
  rewrite (n_iters_of_pos _ _ Hb). cbn [bind].
  rewrite (for_range_first_raises _ _ e); [reflexivity| |apply Hx].
  apply ceil_div_pos; [assumption|].
  unfold shape0. destruct (rows3 X); [contradiction|simpl; lia].
Qed.

Lemma compute_z_without_fcn self kind :
  fcn self = None -> feature_extractor_type self = "supervised_fcn" ->
  exists e, compute_z self kind = Err e.
Proof.
  intros Hf Ht. rewrite compute_z_as_gen.
  destruct (select_split self kind) as [X|e]; [|now exists e].
  cbn [bind]. destruct (compute_z_gen self X) as [z|e] eqn:Hz; [|now exists e].
  destruct (compute_z_gen_ok_inv _ _ _ Hz) as [Hb Hne].
  rewrite (compute_z_gen_first_raises self X AttributeError) in Hz;
    [discriminate|assumption|assumption|].
  intros x. now apply extract_without_fcn.
Qed.

(** Every object that [__init__] returns has a positive batch size and
    non-empty train and test splits (otherwise the two [compute_z] calls
    of the constructor raise), carries the classifier exactly when no
    custom dataset is used, and carries [nn.Identity()] when the
    fidelity enhancer is switched off. *)
Lemma Evaluation_init_inv a (w0 w1 : World E) self :
  Evaluation_init a w0 = Ok (self, w1) ->
  0 < batch_size self /\
  rows3 (X_train self) <> [] /\
  rows3 (X_test self) <> [] /\
  feature_extractor_type self = arg_feature_extractor_type a /\
  (arg_use_custom_dataset a = true -> fcn self = None) /\
  (arg_use_custom_dataset a = false -> exists f, fcn self = Some f) /\
  (arg_use_fidelity_enhancer a = false -> fidelity_enhancer self = Identity) /\
  (fcn self = None -> feature_extractor_type self = "rocket").
Proof.
  intros H. unfold Evaluation_init in H.
  inv_bindM H as dev w_dev Hdev. inv_lift Hdev.
  inv_bindM H as bs wa Hbs. inv_lift Hbs.
  inv_bindM H as u wb Hassert. inv_lift Hassert.
  inv_bindM H as the_fcn wc Hfcn.
  inv_bindM H as kernels wd Hker.
  inv_bindM H as data we Hdata.
  destruct data as [[[x_train x_test] y_train] y_test].
  inv_bindM H as st2 wf Hst2.
  inv_bindM H as enh wg Henh.
  inv_bindM H as zs_train wh Hztrain. inv_lift Hztrain.
  inv_bindM H as zs_test wi Hztest. inv_lift Hztest.
  inv_bindM H as fit wj Hfit. destruct fit as [fitted z_transform_pca].
  inv_bindM H as c0 wk Hc0. inv_bindM H as xmin wl Hxmin.
  inv_bindM H as xmax wm Hxmax. inv_bindM H as c1 wn Hc1.
  inv_bindM H as ymin wo Hymin. inv_bindM H as ymax wp Hymax.
  apply ret_Ok_inv in H. destruct H as [-> _].
  pose proof Hztrain as Hztrain0.
  rewrite compute_z_as_gen in Hztrain, Hztest.
  simpl in Hztrain, Hztest.
  apply compute_z_gen_ok_inv in Hztrain. apply compute_z_gen_ok_inv in Hztest.
  simpl in Hztrain, Hztest. simpl.
  destruct Hztrain as [Hb Htr]. destruct Hztest as [_ Hte].
  repeat split; try assumption.
  - intros Hc. rewrite Hc in Hfcn. simpl in Hfcn.
    apply ret_Ok_inv in Hfcn. now destruct Hfcn.
  - intros Hc. rewrite Hc in Hfcn. simpl in Hfcn.
    inv_bindM Hfcn as f wq Hload.
    apply ret_Ok_inv in Hfcn. destruct Hfcn as [-> _]. now eexists.
  - intros Hf. rewrite Hf in Henh. simpl in Henh.
    apply ret_Ok_inv in Henh. now destruct Henh.
  - intros Hnone.
    unfold py_assert, in_list in Hassert. simpl in Hassert.
    destruct (String.eqb_spec (arg_feature_extractor_type a) "supervised_fcn") as [Hs|Hs].
    + exfalso.
      match type of Hztrain0 with compute_z ?s _ = _ =>
        destruct (compute_z_without_fcn s "train" Hnone Hs) as [e He] end.
      rewrite He in Hztrain0. discriminate.
    + destruct (String.eqb_spec (arg_feature_extractor_type a) "rocket") as [Hr|Hr];
        [assumption|discriminate].
Qed.

End Construction.

(* ================================================================= *)
(** ** Batched feature extraction *)

Section BatchedExtraction.

Context {E : Env}.
Implicit Types (self : Evaluation E) (X : ndarray3).

(** C1 (batch invariance).  For an input [X] with at least one sample
    and two positive batch sizes [b1] and [b2], the batched extraction
    gives the same concatenated output, element for element, under
    both batch sizes, as soon as the per-slice extractor treats the rows
    of a slice independently: this holds for [compute_z_gen] on [X] and
    for [compute_z] on the split [X] that [kind] selects.  Both runs
    equal the per-row function mapped over all rows of [X]. *)
Theorem batch_invariance self (b1 b2 : Z) X
    (g : list series -> result (list float)) :
  0 < b1 -> 0 < b2 -> rows3 X <> [] -> rowwise_on self X g ->
  (compute_z_gen (with_batch_size b1 self) X =
   compute_z_gen (with_batch_size b2 self) X) /\
  (forall kind, select_split self kind = Ok X ->
     compute_z (with_batch_size b1 self) kind =
     compute_z (with_batch_size b2 self) kind) /\
  compute_z_gen (with_batch_size b1 self) X = mapM g (rows3 X).
Proof.
  intros H1 H2 Hne Hg.
  assert (Hrun : forall b, 0 < b ->
            compute_z_gen (with_batch_size b self) X = mapM g (rows3 X)).
  { intros b Hb. apply compute_z_gen_rowwise; [exact Hb|exact Hne|exact Hg]. }
  split; [|split].
  - now rewrite (Hrun b1 H1), (Hrun b2 H2).
  - intros kind Hk. rewrite !compute_z_as_gen, !select_split_with_batch_size, Hk.
    cbn [bind]. now rewrite (Hrun b1 H1), (Hrun b2 H2).
  - exact (Hrun b1 H1).
Qed.

(** C7 (partition).  For the split [X] with [N >= 1] rows that [kind]
    selects and a positive batch size [b], the loop of [compute_z] runs
    [ceil(N / b)] times; its slices are contiguous blocks of [b] rows
    (slice [i] is rows [i*b .. i*b+b-1], cut at the end of [X]), they are
    not empty, all but the last have exactly [b] rows, and put end to end
    they are [X]; [compute_z] applies the extractor to these slices in
    order, and with a row-wise extractor its output has one feature row
    per input row, in input order. *)
Theorem compute_z_partition self kind X (g : list series -> list float) :
  select_split self kind = Ok X -> 0 < batch_size self -> rows3 X <> [] ->
  let b := batch_size self in
  let N := shape0 X in
  let slices := batch_slices (ceil_div N b) b (rows3 X) in
  n_iters_of N b = Ok (ceil_div N b) /\
  (ceil_div N b - 1) * b < N <= ceil_div N b * b /\
  length slices = Z.to_nat (ceil_div N b) /\
  concat slices = rows3 X /\
  (forall i, (i < length slices)%nat ->
     nth i slices [] = firstn (Z.to_nat b) (skipn (i * Z.to_nat b) (rows3 X)) /\
     (1 <= length (nth i slices []) <= Z.to_nat b)%nat) /\
  (forall i, (S i < length slices)%nat ->
     length (nth i slices []) = Z.to_nat b) /\
  compute_z self kind =
    (zs <- mapM (fun rs => _extract_feature_representations self
                             (Array3 (chans X) (width X) rs)) slices ;;
     np_concatenate zs) /\
  (rowwise_on self X (fun r => Ok (g r)) ->
     compute_z self kind = Ok (map g (rows3 X))).
Proof.
  intros Hk Hb Hne b N slices.
  assert (Hn : n_iters_of N b = Ok (ceil_div N b)) by now apply n_iters_of_pos.
  assert (Hlen : length slices = Z.to_nat (ceil_div N b))
    by apply batch_slices_length.
  split; [exact Hn|]. split; [now apply ceil_div_bounds|].
  split; [exact Hlen|]. split; [now apply batch_slices_cover|].
  split; [|split; [|split]].
  - intros i Hi. rewrite Hlen in Hi. split.
    + now apply batch_slices_nth.
    + exact (proj2 (batch_slices_sizes b (rows3 X) i Hb Hi)).
  - intros i Hi. rewrite Hlen in Hi.
    assert (Hi' : (i < Z.to_nat (ceil_div N b))%nat) by lia.
    exact (proj1 (batch_slices_sizes b (rows3 X) i Hb Hi') Hi).
  - rewrite compute_z_as_gen, Hk. cbn [bind]. unfold compute_z_gen.
    fold N b. rewrite Hn. cbn [bind]. unfold slice3.
    now rewrite (for_range_slices
              (fun rs => _extract_feature_representations self
                           (Array3 (chans X) (width X) rs))).
  - intros Hg. rewrite compute_z_as_gen, Hk. cbn [bind].
    rewrite (compute_z_gen_rowwise self X (fun r => Ok (g r)) Hb Hne Hg).
    apply mapM_pure.
Qed.

End BatchedExtraction.

(** C1 on the three demo train samples, batch sizes 1 and 2. *)
Lemma batch_invariance_witness :
  rowwise_on (Demo.built true 3 false false) Demo.x_train
             (fun smp => Ok (Demo.first_channel smp)) /\
  compute_z (with_batch_size 1 (Demo.built true 3 false false)) "train" =
  compute_z (with_batch_size 2 (Demo.built true 3 false false)) "train" /\
  compute_z_gen (with_batch_size 1 (Demo.built true 3 false false)) Demo.x_train =
  Ok [[Demo.fl 1; Demo.fl 2]; [Demo.fl 3; Demo.fl 4]; [Demo.fl 5; Demo.fl 6]].
Proof.
  assert (Hg : rowwise_on (Demo.built true 3 false false) Demo.x_train
                 (fun smp => Ok (Demo.first_channel smp))).
  { intros rs _. unfold _extract_feature_representations. simpl.
    symmetry. apply mapM_pure. }
  split; [exact Hg|].
  destruct (batch_invariance (Demo.built true 3 false false) 1 2 Demo.x_train
              (fun smp => Ok (Demo.first_channel smp)))
    as (_ & Hz & Hv); [reflexivity|reflexivity|discriminate|exact Hg|].
  split; [now apply Hz|exact Hv].
Defined.

(** C7 on the three demo train samples with batch size 2: two slices, of
    two rows and one row. *)
Lemma compute_z_partition_witness :
  batch_slices 2 2 (rows3 Demo.x_train) =
    [ [[[Demo.fl 1; Demo.fl 2]]; [[Demo.fl 3; Demo.fl 4]]];
      [[[Demo.fl 5; Demo.fl 6]]] ] /\
  compute_z (Demo.built true 2 false false) "train" =
    Ok (map Demo.first_channel (rows3 Demo.x_train)).
Proof.
  split; [reflexivity|].
  apply (compute_z_partition (Demo.built true 2 false false) "train" Demo.x_train
           Demo.first_channel); [reflexivity|reflexivity|discriminate|].
  intros rs _. unfold _extract_feature_representations. simpl.
  symmetry. apply mapM_pure.
Defined.

(* ================================================================= *)
(** ** Kernel-transform extraction and the channel axis *)

Section RocketChannels.

Context {E : Env}.
Implicit Types (self : Evaluation E) (x : ndarray3).

(** C2, as amended.  With the ['rocket'] extractor and a batch of one
    or more channels, the extraction reads channel 0 of every sample
    and hands exactly that to the kernel transform: the other channels
    are ignored, the result (value or exception) is the one of the
    single-channel batch made of the first channels, and the channel
    count leads to an exception only when there is no channel at all. *)
Theorem rocket_reads_first_channel self x :
  feature_extractor_type self = "rocket" -> (1 <= chans x)%nat ->
  _extract_feature_representations self x =
    (k <- getattr (rocket_kernels self) ;;
     apply_kernels E (map (fun smp => nth 0 smp []) (rows3 x)) k) /\
  _extract_feature_representations self x =
    _extract_feature_representations self (first_channels x).
Proof.
  intros Ht Hc. unfold _extract_feature_representations, channel0, first_channels.
  rewrite Ht. simpl.
  destruct (chans x) as [|c]; [lia|]. cbn [bind].
  split; [reflexivity|].
  rewrite map_map. reflexivity.
Qed.

Lemma rocket_no_channel self x :
  feature_extractor_type self = "rocket" -> chans x = 0%nat ->
  _extract_feature_representations self x = Err IndexError.
Proof.
  intros Ht Hc. unfold _extract_feature_representations, channel0.
  rewrite Ht, Hc. reflexivity.
Qed.

End RocketChannels.

(** C2 as stated does not hold: a batch of two samples with two channels
    each goes through the ['rocket'] extraction and yields feature rows;
    no exception is raised. *)
Lemma rocket_multichannel_counterexample :
  ~ (forall (E : Env) (self : Evaluation E) (x : ndarray3),
       feature_extractor_type self = "rocket" -> (1 < chans x)%nat ->
       exists e, _extract_feature_representations self x = Err e).
Proof.
  intros H.
  destruct (H (Demo.env true) (Demo.built true 2 false false)
              Demo.two_channel_batch eq_refl) as [e He].
  - unfold Demo.two_channel_batch. simpl. lia.
  - discriminate He.
Qed.

(** The amended C2 on the two-channel demo batch: the features are those
    of the first channels. *)
Lemma rocket_reads_first_channel_witness :
  _extract_feature_representations (Demo.built true 2 false false)
    Demo.two_channel_batch =
  Ok [[Demo.fl 1; Demo.fl 2]; [Demo.fl 3; Demo.fl 4]] /\
  _extract_feature_representations (Demo.built true 2 false false)
    Demo.two_channel_batch =
  _extract_feature_representations (Demo.built true 2 false false)
    (first_channels Demo.two_channel_batch).
Proof.
  destruct (rocket_reads_first_channel (Demo.built true 2 false false)
              Demo.two_channel_batch eq_refl) as [Hv Hs].
  - unfold Demo.two_channel_batch. simpl. apply le_S, le_n.
  - split; [exact Hv|exact Hs].
Defined.

(* ================================================================= *)
(** ** Outlier filter and distribution distance *)

Lemma remove_outliers_length (z : ndarray2) :
  length (remove_outliers z) = surviving_rows z.
Proof.
  unfold remove_outliers, surviving_rows.
  induction z as [|r z IH]; [reflexivity|].
  simpl. destruct (row_finite r); simpl; now rewrite IH.
Qed.

Lemma remove_outliers_In (z : ndarray2) (r : list float) :
  In r (remove_outliers z) <-> In r z /\ row_finite r = true.
Proof. unfold remove_outliers. apply filter_In. Qed.

(** A row with a non-finite entry is not finite as a row. *)
Lemma row_with_nonfinite (r : list float) (v : float) :
  In v r -> is_finite v = false -> row_finite r = false.
Proof.
  intros Hin Hv. unfold row_finite.
  destruct (forallb is_finite r) eqn:Hall; [|reflexivity].
  rewrite forallb_forall in Hall. rewrite (Hall v Hin) in Hv. discriminate.
Qed.

Lemma remove_outliers_idempotent (z : ndarray2) :
  remove_outliers (remove_outliers z) = remove_outliers z.
Proof.
  unfold remove_outliers. induction z as [|r z IH]; [reflexivity|].
  simpl. destruct (row_finite r) eqn:Hr; simpl; [rewrite Hr, IH|]; auto.
Qed.

Lemma remove_outliers_app (z z' : ndarray2) :
  remove_outliers (z ++ z') = remove_outliers z ++ remove_outliers z'.
Proof. apply filter_app. Qed.

Section FidScore.

Variable calculate_fid : ndarray2 -> ndarray2 -> result float.

Lemma fid_score_unfold (z1 z2 : ndarray2) :
  fid_score calculate_fid z1 z2 =
  calculate_fid (remove_outliers z1) (remove_outliers z2).
Proof.
  unfold fid_score. now destruct (calculate_fid _ _).
Qed.

(** C5.  [fid_score] hands to the distance routine the two sets
    filtered one by one: the first argument is [remove_outliers z1],
    the second [remove_outliers z2].  A row reaches the statistics of
    its set exactly when it is a row of that set with finite entries
    only, so a row with a non-finite entry is left out; what is kept of
    one set does not depend on the other set, and adding rows with
    non-finite entries to either set changes nothing. *)
Theorem fid_score_filters_each_set (z1 z2 : ndarray2) :
  fid_score calculate_fid z1 z2 =
    calculate_fid (remove_outliers z1) (remove_outliers z2) /\
  (forall r, In r (remove_outliers z1) <-> In r z1 /\ row_finite r = true) /\
  (forall r, In r (remove_outliers z2) <-> In r z2 /\ row_finite r = true) /\
  (forall r v, In v r -> is_finite v = false ->
     ~ In r (remove_outliers z1) /\ ~ In r (remove_outliers z2)) /\
  (forall z2', fid_score calculate_fid z1 z2' =
     calculate_fid (remove_outliers z1) (remove_outliers z2')) /\
  (forall z1', fid_score calculate_fid z1' z2 =
     calculate_fid (remove_outliers z1') (remove_outliers z2)) /\
  (forall pre post r, z1 = pre ++ r :: post -> row_finite r = false ->
     fid_score calculate_fid z1 z2 = fid_score calculate_fid (pre ++ post) z2) /\
  (forall pre post r, z2 = pre ++ r :: post -> row_finite r = false ->
     fid_score calculate_fid z1 z2 = fid_score calculate_fid z1 (pre ++ post)).
Proof.
  split; [apply fid_score_unfold|].
  split; [intros r; apply remove_outliers_In|].
  split; [intros r; apply remove_outliers_In|].
  split; [|split; [|split; [|split]]].
  - intros r v Hin Hv. pose proof (row_with_nonfinite r v Hin Hv) as Hr.
    split; intros Hc; apply remove_outliers_In in Hc; destruct Hc as [_ Hc];
      rewrite Hr in Hc; discriminate.
  - intros z2'. apply fid_score_unfold.
  - intros z1'. apply fid_score_unfold.
  - intros pre post r -> Hr. rewrite !fid_score_unfold, !remove_outliers_app.
    unfold remove_outliers at 2. simpl. now rewrite Hr.
  - intros pre post r -> Hr. rewrite !fid_score_unfold, !remove_outliers_app.
    unfold remove_outliers at 3. simpl. now rewrite Hr.
Qed.

End FidScore.

(** C3.  When either feature set keeps fewer than two rows after outlier
    filtering (fewer than two rows whose entries are all finite),
    [fid_score] raises the insufficient-data error and returns no score.
    The check is the one of the distance routine as the spec describes
    it; [fid_score] itself only filters and delegates. *)
Theorem fid_score_insufficient_data (frechet : ndarray2 -> ndarray2 -> float)
    (z1 z2 : ndarray2) :
  (surviving_rows z1 < 2)%nat \/ (surviving_rows z2 < 2)%nat ->
  fid_score (calculate_fid_spec frechet) z1 z2 = Err InsufficientDataError.
Proof.
  intros H. rewrite fid_score_unfold. unfold calculate_fid_spec.
  rewrite !remove_outliers_length.
  destruct H as [H|H].
  - apply Nat.ltb_lt in H. now rewrite H.
  - apply Nat.ltb_lt in H. rewrite H. now rewrite orb_true_r.
Qed.

(** With two surviving rows on each side the routine is reached and
    returns the closed form on the filtered sets. *)
Lemma fid_score_sufficient_data (frechet : ndarray2 -> ndarray2 -> float)
    (z1 z2 : ndarray2) :
  (2 <= surviving_rows z1)%nat -> (2 <= surviving_rows z2)%nat ->
  fid_score (calculate_fid_spec frechet) z1 z2 =
  Ok (frechet (remove_outliers z1) (remove_outliers z2)).
Proof.
  intros H1 H2. rewrite fid_score_unfold. unfold calculate_fid_spec.
  rewrite !remove_outliers_length.
  apply Nat.ltb_ge in H1. apply Nat.ltb_ge in H2. now rewrite H1, H2.
Qed.

(** C3 on a set of three rows of which two hold a NaN or an infinity:
    one row survives. *)
Lemma fid_score_insufficient_data_witness :
  surviving_rows [[Demo.fl 1; S754_nan]; [Demo.fl 2; Demo.fl 3];
                  [S754_infinity false; Demo.fl 4]] = 1%nat /\
  fid_score (calculate_fid_spec (fun _ _ => S754_zero false))
    [[Demo.fl 1; S754_nan]; [Demo.fl 2; Demo.fl 3];
     [S754_infinity false; Demo.fl 4]]
    [[Demo.fl 1; Demo.fl 2]; [Demo.fl 3; Demo.fl 4]] =
  Err InsufficientDataError.
Proof.
  split; [reflexivity|].
  apply (fid_score_insufficient_data (fun _ _ => S754_zero false)).
  left. apply le_n.
Defined.

(** C5 on a first set with a NaN row: the routine receives the set
    without it. *)
Lemma fid_score_filters_each_set_witness :
  fid_score (fun a b => Ok (Demo.float_of_nat (length a + length b)))
    [[Demo.fl 1; S754_nan]; [Demo.fl 2; Demo.fl 3]]
    [[Demo.fl 1; Demo.fl 2]; [Demo.fl 3; Demo.fl 4]] =
  Ok (Demo.fl 3).
Proof.
  exact (proj1 (fid_score_filters_each_set
                  (fun a b => Ok (Demo.float_of_nat (length a + length b)))
                  [[Demo.fl 1; S754_nan]; [Demo.fl 2; Demo.fl 3]]
                  [[Demo.fl 1; Demo.fl 2]; [Demo.fl 3; Demo.fl 4]])).
Defined.

(* ================================================================= *)
(** ** Sampling and the refinement step *)

Lemma torch_cat_uniform (err : exn) (ts : list ndarray3) (c wd : nat) :
  ts <> [] -> (forall t, In t ts -> chans t = c /\ width t = wd) ->
  torch_cat err ts = Ok (Array3 c wd (concat (map rows3 ts))).
Proof.
  intros Hne Hall. destruct ts as [|t rest]; [contradiction|].
  unfold torch_cat.
  destruct (Hall t (or_introl eq_refl)) as [Hc Hw].
  replace (forallb (same_trailing t) rest) with true; [now rewrite Hc, Hw|].
  symmetry. apply forallb_forall. intros u Hu.
  destruct (Hall u (or_intror Hu)) as [Hc' Hw'].
  unfold same_trailing. rewrite Hc, Hw, Hc', Hw', !Nat.eqb_refl. reflexivity.
Qed.


Section Sampling.

Context {E : Env}.
Implicit Types (self : Evaluation E) (a : InitArgs E) (w : World E).



End Sampling.


(* ================================================================= *)
(** ** Inception score *)

Lemma batch_slices_concat_Z {A : Type} (k b : Z) (l : list A) :
  0 <= k -> 0 < b ->
  concat (batch_slices k b l) = firstn (Z.to_nat (k * b)) l.
Proof.
  intros Hk Hb. rewrite <- (Z2Nat.id k Hk) at 1.
  rewrite batch_slices_concat by assumption. now rewrite Z2Nat.id.
Qed.

Section InceptionScore.

Context {E : Env}.
Implicit Types (self : Evaluation E) (a : InitArgs E) (X_gen : ndarray3).

(** The loop of [inception_score] with a classifier that treats rows
    one by one: the iteration count comes from [X_test], the slices are
    cut from [X_gen], so the rows of [X_gen] from position
    [n_iters * batch_size] on are never read. *)
Lemma class_probabilities_rowwise self (c wd : nat) (rows : list (list series))
    (f : Classifier E) (logits : list series -> list float) :
  fcn self = Some f -> 0 < batch_size self -> rows3 (X_test self) <> [] ->
  (forall rs, fcn_forward E f (to_float32 E (Array3 c wd rs)) false =
              Ok (map logits rs)) ->
  class_probabilities self (Array3 c wd rows) =
  Ok (map (fun r => softmax E (logits r))
          (firstn (Z.to_nat (ceil_div (shape0 (X_test self)) (batch_size self)
                             * batch_size self)) rows)).
Proof.
  intros Hf Hb Hne Hrow. unfold class_probabilities.
  rewrite (n_iters_of_pos _ _ Hb). cbn [bind].
  set (k := ceil_div (shape0 (X_test self)) (batch_size self)).
  set (p := fun r => softmax E (logits r)).
  assert (Hk : 1 <= k).
  { apply ceil_div_pos; [assumption|]. unfold shape0.
    destruct (rows3 (X_test self)); [contradiction|simpl; lia]. }
  unfold for_range.
  rewrite (mapM_ext_in _
             (fun i => (fun rs => Ok (map p rs))
                         (py_slice (i * batch_size self)
                                   ((i + 1) * batch_size self) rows))).
  2:{ intros i _. rewrite Hf. cbn [getattr bind]. unfold slice3. simpl.
      rewrite Hrow. cbn [bind]. now rewrite map_map. }
  rewrite <- (mapM_map (fun i => py_slice (i * batch_size self)
                                           ((i + 1) * batch_size self) rows)
                       (fun rs => Ok (map p rs))).
  change (map (fun i => py_slice (i * batch_size self)
                                 ((i + 1) * batch_size self) rows) (py_range k))
    with (batch_slices k (batch_size self) rows).
  rewrite mapM_pure. cbn [bind].
  assert (Hnn : map (map p) (batch_slices k (batch_size self) rows) <> []).
  { intros Hnil. apply (f_equal (@length _)) in Hnil.
    rewrite length_map, batch_slices_length in Hnil. simpl in Hnil. lia. }
  unfold np_concatenate.
  destruct (map (map p) (batch_slices k (batch_size self) rows)) eqn:Hm;
    [contradiction|].
  rewrite <- Hm, <- concat_map.
  rewrite batch_slices_concat_Z by lia. reflexivity.
Qed.

(** C8.  For an [Evaluation] built with the pretrained classifier, and
    a classifier that treats rows one by one, [inception_score] takes
    its iteration count from [X_test]: the class-probability set it
    scores is made of the first [ceil(|X_test| / batch_size) * batch_size]
    rows of [X_gen] only, so the number of scored vectors is
    [min(|X_gen|, ceil(|X_test| / batch_size) * batch_size)], and any rows
    of [X_gen] beyond that bound do not change the returned score. *)
Theorem inception_score_scores_test_count a (w0 w1 : World E) self X_gen
    (logits : list series -> list float) :
  Evaluation_init a w0 = Ok (self, w1) ->
  arg_use_custom_dataset a = false ->
  (forall f rs, fcn self = Some f ->
     fcn_forward E f (to_float32 E (Array3 (chans X_gen) (width X_gen) rs)) false =
     Ok (map logits rs)) ->
  let b := batch_size self in
  let cap := ceil_div (shape0 (X_test self)) b * b in
  let scored := map (fun r => softmax E (logits r))
                    (firstn (Z.to_nat cap) (rows3 X_gen)) in
  n_iters_of (shape0 (X_test self)) b = Ok (ceil_div (shape0 (X_test self)) b) /\
  class_probabilities self X_gen = Ok scored /\
  inception_score self X_gen = calculate_inception_score E scored /\
  Z.of_nat (length scored) = Z.min (shape0 X_gen) cap /\
  (forall extra, cap <= shape0 X_gen ->
     inception_score self
       (Array3 (chans X_gen) (width X_gen) (rows3 X_gen ++ extra)) =
     inception_score self X_gen).
Proof.
  intros Hinit Hcustom Hrow b cap scored.
  destruct (Evaluation_init_inv a w0 w1 self Hinit)
    as (Hb & _ & Hte & _ & _ & Hfcn & _ & _).
  destruct (Hfcn Hcustom) as [f Hf].
  assert (Hcp : forall rows,
            class_probabilities self (Array3 (chans X_gen) (width X_gen) rows) =
            Ok (map (fun r => softmax E (logits r)) (firstn (Z.to_nat cap) rows))).
  { intros rows. apply (class_probabilities_rowwise self _ _ rows f logits);
      try assumption. intros rs. now apply Hrow. }
  assert (Hx : class_probabilities self X_gen = Ok scored).
  { specialize (Hcp (rows3 X_gen)). now destruct X_gen. }
  assert (Hcap : 0 <= cap).
  { pose proof (ceil_div_bounds (shape0 (X_test self)) b Hb).
    pose proof (shape0_nonneg (X_test self)). unfold cap. nia. }
  split; [now apply n_iters_of_pos|]. split; [exact Hx|].
  split; [unfold inception_score; now rewrite Hx|].
  split.
  - unfold scored, shape0. rewrite length_map, length_firstn. lia.
  - intros extra Hle. unfold inception_score. rewrite Hx, Hcp. cbn [bind].
    do 2 f_equal. unfold scored. f_equal.
    rewrite firstn_app.
    replace (Z.to_nat cap - length (rows3 X_gen))%nat with 0%nat
      by (unfold shape0 in Hle; lia).
    simpl. now rewrite app_nil_r.
Qed.

(** C10.  When [use_custom_dataset=True] the constructor never sets
    [self.fcn].  Every object it returns therefore has no classifier and
    uses the ['rocket'] extractor, and every call of [inception_score]
    on it raises [AttributeError]; with the ['supervised_fcn'] extractor
    the constructor itself cannot return, because every feature
    extraction on an object without [self.fcn] raises
    [AttributeError]. *)
Theorem custom_dataset_has_no_classifier a (w0 : World E) :
  arg_use_custom_dataset a = true ->
  (forall self w1, Evaluation_init a w0 = Ok (self, w1) ->
     fcn self = None /\
     feature_extractor_type self = "rocket" /\
     (forall X_gen, class_probabilities self X_gen = Err AttributeError) /\
     (forall X_gen, inception_score self X_gen = Err AttributeError)) /\
  (arg_feature_extractor_type a = "supervised_fcn" ->
     forall r, Evaluation_init a w0 <> Ok r) /\
  (forall (s : Evaluation E) x,
     fcn s = None -> feature_extractor_type s = "supervised_fcn" ->
     _extract_feature_representations s x = Err AttributeError).
Proof.
  intros Hcustom. split; [|split].
  - intros self w1 Hinit.
    destruct (Evaluation_init_inv a w0 w1 self Hinit)
      as (Hb & _ & Hte & _ & Hnone & _ & _ & Hrocket).
    specialize (Hnone Hcustom).
    assert (Hcp : forall X_gen, class_probabilities self X_gen = Err AttributeError).
    { intros X_gen. unfold class_probabilities.
      rewrite (n_iters_of_pos _ _ Hb). cbn [bind].
      rewrite (for_range_first_raises _ _ AttributeError); [reflexivity| |].
      - apply ceil_div_pos; [assumption|]. unfold shape0.
        destruct (rows3 (X_test self)); [contradiction|simpl; lia].
      - now rewrite Hnone. }
    split; [exact Hnone|]. split; [now apply Hrocket|]. split; [exact Hcp|].
    intros X_gen. unfold inception_score. now rewrite Hcp.
  - intros Hty [self w1] Hinit.
    destruct (Evaluation_init_inv a w0 w1 self Hinit)
      as (_ & _ & _ & Hsame & Hnone & _ & _ & Hrocket).
    specialize (Hrocket (Hnone Hcustom)).
    rewrite Hsame, Hty in Hrocket. discriminate.
  - intros s x. apply extract_without_fcn.
Qed.

End InceptionScore.

(** C8 on the demo object with batch size 1: the test split has two
    rows, so of five generated rows only the first two are scored. *)
Lemma inception_score_scores_test_count_witness :
  Evaluation_init (Demo.args true 1 false "rocket" false) 0%nat =
    Ok (Demo.built true 1 false false, 0%nat) /\
  class_probabilities (Demo.built true 1 false false) (Demo.sampled 5) =
    Ok (map Demo.first_channel (rows3 (Demo.sampled 2))) /\
  inception_score (Demo.built true 1 false false) (Demo.sampled 5) =
    inception_score (Demo.built true 1 false false) (Demo.sampled 2).
Proof.
  assert (Hinit : Evaluation_init (Demo.args true 1 false "rocket" false) 0%nat =
                  Ok (Demo.built true 1 false false, 0%nat)) by reflexivity.
  split; [exact Hinit|].
  destruct (inception_score_scores_test_count _ _ _ _ (Demo.sampled 5)
              Demo.first_channel Hinit eq_refl) as (_ & Hcp & Hs & _ & _).
  - intros f rs _. reflexivity.
  - split; [exact Hcp|]. rewrite Hs. reflexivity.
Defined.

(** C10 on the demo object built from a custom dataset. *)
Lemma custom_dataset_has_no_classifier_witness :
  Evaluation_init (Demo.args true 2 false "rocket" true) 0%nat =
    Ok (Demo.built true 2 false true, 0%nat) /\
  inception_score (Demo.built true 2 false true) (Demo.sampled 5) =
    Err AttributeError /\
  Evaluation_init (Demo.args true 2 false "supervised_fcn" true) 0%nat =
    Err AttributeError.
Proof.
  assert (Hinit : Evaluation_init (Demo.args true 2 false "rocket" true) 0%nat =
                  Ok (Demo.built true 2 false true, 0%nat)) by reflexivity.
  split; [exact Hinit|]. split; [|reflexivity].
  destruct (custom_dataset_has_no_classifier
              (Demo.args true 2 false "rocket" true) 0%nat eq_refl) as (Hobj & _ & _).
  destruct (Hobj _ _ Hinit) as (_ & _ & _ & His). apply His.
Defined.

(* ================================================================= *)
(** ** Stochastic variant of the data ([compute_z_svq]) *)

Section StochasticVariant.

Context {E : Env}.
Implicit Types (self : Evaluation E) (a : InitArgs E) (w : World E).

(** The first turn of the loop of [compute_z_svq] on a split [X] with
    [nn.Identity()] in place of the enhancer: the slice is moved to
    [self.device], and what that raises is raised; if the slice arrives,
    reading [.tau] raises [AttributeError]. *)
Lemma compute_z_svq_first_turn self kind w (X : ndarray3) :
  0 < batch_size self -> rows3 X <> [] ->
  fidelity_enhancer self = Identity ->
  select_split self kind = Ok X ->
  compute_z_svq self kind w =
  match tensor_to E (device self)
          (to_float32 E (slice3 0 (batch_size self) X)) with
  | Ok _ => Err AttributeError
  | Err e => Err e
  end.
Proof.
  intros Hb Hne Hid Hsel. unfold compute_z_svq.
  rewrite (bindM_Ok _ _ _ _ _ (lift_Ok _ w _ Hsel)). cbv zeta.
  rewrite (bindM_Ok _ _ _ _ _ (lift_Ok _ w _ (n_iters_of_pos _ _ Hb))).
  assert (Hk : 1 <= ceil_div (shape0 X) (batch_size self)).
  { apply ceil_div_pos; [assumption|]. unfold shape0.
    destruct (rows3 X); [contradiction|simpl; lia]. }
  replace ((0 + 1) * batch_size self) with (batch_size self) by ring.
  rewrite Hid.
  destruct (tensor_to E (device self)
              (to_float32 E (slice3 0 (batch_size self) X)))
    as [x|e] eqn:Hmove.
  - apply bindM_Err. apply forM_first_raises; [assumption|].
    replace ((0 + 1) * batch_size self) with (batch_size self) by ring.
    change (0 * batch_size self) with 0.
    rewrite (bindM_Ok _ _ _ _ _ (lift_Ok _ w _ Hmove)). reflexivity.
  - apply bindM_Err. apply forM_first_raises; [assumption|].
    replace ((0 + 1) * batch_size self) with (batch_size self) by ring.
    change (0 * batch_size self) with 0.
    apply bindM_Err. now apply lift_Err.
Qed.

(** C9, as amended.  For an [Evaluation] built with
    [use_fidelity_enhancer=False], [self.fidelity_enhancer] is
    [nn.Identity()], and [compute_z_svq] never returns.  Called with
    ['train'] or ['test'] it raises in the first turn of its loop: the
    first slice of the split is moved to [self.device], and an exception
    of that transfer is the one raised; once the slice is on the device,
    reading [self.fidelity_enhancer.tau] raises [AttributeError].
    Called with any other [kind] it fails the assertion on [kind] before
    the loop. *)
Theorem compute_z_svq_without_enhancer a (w0 w1 : World E) self :
  Evaluation_init a w0 = Ok (self, w1) ->
  arg_use_fidelity_enhancer a = false ->
  forall (kind : string) w,
    (in_list kind ["train"; "test"] = true ->
       exists X,
         select_split self kind = Ok X /\
         (forall e,
            tensor_to E (device self)
              (to_float32 E (slice3 0 (batch_size self) X)) = Err e ->
            compute_z_svq self kind w = Err e) /\
         (forall x,
            tensor_to E (device self)
              (to_float32 E (slice3 0 (batch_size self) X)) = Ok x ->
            compute_z_svq self kind w = Err AttributeError)) /\
    (in_list kind ["train"; "test"] = false ->
       compute_z_svq self kind w = Err AssertionError) /\
    (forall r, compute_z_svq self kind w <> Ok r).
Proof.
  intros Hinit Hfe kind w.
  destruct (Evaluation_init_inv a w0 w1 self Hinit)
    as (Hb & Htr & Hte & _ & _ & _ & Hid & _).
  specialize (Hid Hfe).
  assert (Hloop : forall X, rows3 X <> [] -> select_split self kind = Ok X ->
            (forall e,
               tensor_to E (device self)
                 (to_float32 E (slice3 0 (batch_size self) X)) = Err e ->
               compute_z_svq self kind w = Err e) /\
            (forall x,
               tensor_to E (device self)
                 (to_float32 E (slice3 0 (batch_size self) X)) = Ok x ->
               compute_z_svq self kind w = Err AttributeError)).
  { intros X Hne Hsel.
    rewrite (compute_z_svq_first_turn self kind w X Hb Hne Hid Hsel).
    split; intros ? Hmove; now rewrite Hmove. }
  assert (Hin : in_list kind ["train"; "test"] = true ->
            exists X,
              select_split self kind = Ok X /\
              (forall e,
                 tensor_to E (device self)
                   (to_float32 E (slice3 0 (batch_size self) X)) = Err e ->
                 compute_z_svq self kind w = Err e) /\
              (forall x,
                 tensor_to E (device self)
                   (to_float32 E (slice3 0 (batch_size self) X)) = Ok x ->
                 compute_z_svq self kind w = Err AttributeError)).
  { intros Hk. destruct (select_split_cases self kind) as [[_ [Hs|Hs]]|[Hk' _]].
    - exists (X_train self). split; [exact Hs|]. now apply Hloop.
    - exists (X_test self). split; [exact Hs|]. now apply Hloop.
    - rewrite Hk in Hk'. discriminate. }
  assert (Hout : in_list kind ["train"; "test"] = false ->
            compute_z_svq self kind w = Err AssertionError).
  { intros Hk. destruct (select_split_cases self kind) as [[Hk' _]|[_ Hs]].
    - rewrite Hk in Hk'. discriminate.
    - unfold compute_z_svq. apply bindM_Err. now apply lift_Err. }
  split; [exact Hin|]. split; [exact Hout|].
  intros r Hr. destruct (in_list kind ["train"; "test"]) eqn:Hk.
  - destruct (Hin eq_refl) as (X & _ & Hfail & Hmoved).
    destruct (tensor_to E (device self)
                (to_float32 E (slice3 0 (batch_size self) X))) as [x|e].
    + rewrite (Hmoved x eq_refl) in Hr. discriminate.
    + rewrite (Hfail e eq_refl) in Hr. discriminate.
  - rewrite (Hout eq_refl) in Hr. discriminate.
Qed.

End StochasticVariant.

(** C9 as stated does not hold for every call: on the demo object built
    without the enhancer, [compute_z_svq('validation')] raises
    [AssertionError], not [AttributeError]. *)
Lemma compute_z_svq_counterexample :
  ~ (forall (E : Env) (a : InitArgs E) (w0 w1 : World E) (self : Evaluation E)
            (kind : string) (w : World E),
       Evaluation_init a w0 = Ok (self, w1) ->
       arg_use_fidelity_enhancer a = false ->
       compute_z_svq self kind w = Err AttributeError).
Proof.
  intros H.
  specialize (H (Demo.env true) (Demo.args true 2 false "rocket" false)
                0%nat 0%nat (Demo.built true 2 false false) "validation" 0%nat
                eq_refl eq_refl).
  discriminate H.
Qed.

(** The amended C9 on two objects built without the enhancer.  On the
    demo object the slice reaches device 0 and [.tau] is missing.  The
    second object is built for a custom dataset with the ['rocket']
    extractor on device 9: nothing in [__init__] uses the device, and the
    first transfer of [compute_z_svq] raises [RuntimeError]. *)
Lemma compute_z_svq_without_enhancer_witness :
  Evaluation_init (Demo.args true 2 false "rocket" false) 0%nat =
    Ok (Demo.built true 2 false false, 0%nat) /\
  compute_z_svq (Demo.built true 2 false false) "test" 0%nat = Err AttributeError /\
  compute_z_svq (Demo.built true 2 false false) "validation" 0%nat =
    Err AssertionError /\
  Evaluation_init DemoDevice.args 0%nat = Ok (DemoDevice.built, 0%nat) /\
  compute_z_svq DemoDevice.built "test" 0%nat = Err RuntimeError.
Proof.
  assert (Hinit : Evaluation_init (Demo.args true 2 false "rocket" false) 0%nat =
                  Ok (Demo.built true 2 false false, 0%nat)) by reflexivity.
  assert (Hdev : Evaluation_init DemoDevice.args 0%nat =
                 Ok (DemoDevice.built, 0%nat)) by reflexivity.
  split; [exact Hinit|].
  split; [|split; [|split; [exact Hdev|]]].
  - destruct (proj1 (compute_z_svq_without_enhancer _ _ _ _ Hinit eq_refl
                       "test" 0%nat) eq_refl) as (X & Hsel & _ & Hmoved).
    injection Hsel as <-.
    exact (Hmoved _ eq_refl).
  - apply (proj1 (proj2 (compute_z_svq_without_enhancer _ _ _ _ Hinit eq_refl
                           "validation" 0%nat))).
    reflexivity.
  - destruct (proj1 (compute_z_svq_without_enhancer _ _ _ _ Hdev eq_refl
                       "test" 0%nat) eq_refl) as (X & Hsel & Hfail & _).
    injection Hsel as <-.
    exact (Hfail _ eq_refl).
Defined.

(* ================================================================= *)
(** ** Telemetry *)

Section Telemetry.

Context {E : Env}.
Implicit Types (self : Evaluation E) (w : World E).

(** An exception of [wandb.log] is an exception of
    [wandb.log({key: wandb.Image(plt)})]. *)
Lemma wandb_log_figure_raises (key : string) (img : Image E) w w' (e : exn) :
  wandb_Image E w = Ok (img, w') -> wandb_log E key img w' = Err e ->
  wandb_log_figure key w = Err e.
Proof.
  intros Hi Hl. unfold wandb_log_figure. now rewrite (bindM_Ok _ _ _ _ _ Hi).
Qed.

(** C6, as amended.  None of the three logging methods has an exception
    handler: when the plotting statements before a telemetry call have
    run and the telemetry call raises [e], the method raises [e] to its
    caller and the statements after the call (starting with
    [plt.close()]) are not run.  This holds for the call of
    [log_visual_inspection], the call of [log_pca] and both calls of
    [log_tsne]. *)
Theorem telemetry_errors_propagate self (e : exn) :
  (forall X1 X2 title ylim n_plot_samples alpha w w1,
     log_visual_inspection_figure X1 X2 title ylim n_plot_samples alpha w =
       Ok (tt, w1) ->
     wandb_log_figure ("visual comp (" ++ title ++ ")") w1 = Err e ->
     log_visual_inspection self X1 X2 title ylim n_plot_samples alpha w = Err e) /\
  (forall Zs labels n_plot_samples w w1,
     log_pca_figure self Zs labels n_plot_samples w = Ok (tt, w1) ->
     wandb_log_figure ("PCA on Z (" ++ py_repr E labels ++ ")") w1 = Err e ->
     log_pca self Zs labels n_plot_samples w = Err e) /\
  (forall n_plot_samples X_gen z_test z_gen w w1 inds,
     log_tsne_data_figure self n_plot_samples X_gen w = Ok (inds, w1) ->
     wandb_log_figure "TNSE-data_space" w1 = Err e ->
     log_tsne self n_plot_samples X_gen z_test z_gen w = Err e) /\
  (forall n_plot_samples X_gen z_test z_gen w w1 w2 w3 w4 ind_test ind_gen,
     log_tsne_data_figure self n_plot_samples X_gen w =
       Ok ((ind_test, ind_gen), w1) ->
     wandb_log_figure "TNSE-data_space" w1 = Ok (tt, w2) ->
     plt_close E w2 = Ok (tt, w3) ->
     log_tsne_latent_figure z_test z_gen ind_test ind_gen w3 = Ok (tt, w4) ->
     wandb_log_figure "TSNE-latent_space" w4 = Err e ->
     log_tsne self n_plot_samples X_gen z_test z_gen w = Err e).
Proof.
  split; [|split; [|split]].
  - intros X1 X2 title ylim n alpha w w1 Hfig Hlog.
    unfold log_visual_inspection.
    rewrite (bindM_Ok _ _ _ _ _ Hfig). now apply bindM_Err.
  - intros Zs labels n w w1 Hfig Hlog.
    unfold log_pca.
    rewrite (bindM_Ok _ _ _ _ _ Hfig). now apply bindM_Err.
  - intros n X_gen z_test z_gen w w1 [ind_test ind_gen] Hfig Hlog.
    unfold log_tsne.
    rewrite (bindM_Ok _ _ _ _ _ Hfig). now apply bindM_Err.
  - intros n X_gen z_test z_gen w w1 w2 w3 w4 ind_test ind_gen
           Hfig Hlog1 Hclose Hfig2 Hlog2.
    unfold log_tsne.
    rewrite (bindM_Ok _ _ _ _ _ Hfig).
    rewrite (bindM_Ok _ _ _ _ _ Hlog1).
    rewrite (bindM_Ok _ _ _ _ _ Hclose).
    rewrite (bindM_Ok _ _ _ _ _ Hfig2).
    now apply bindM_Err.
Qed.

End Telemetry.

(** C6 as stated does not hold: with a telemetry sink that refuses the
    call, [log_pca] on the demo object raises the sink's exception to its
    caller, although the figure had been drawn without error. *)
Lemma telemetry_counterexample :
  log_pca_figure (Demo.built false 2 false false)
    [[[Demo.fl 1; Demo.fl 2]; [Demo.fl 3; Demo.fl 4]]] ["train"] 1000 0%nat =
    Ok (tt, 0%nat) /\
  wandb_log (Demo.env false) "PCA on Z (train)" tt 0%nat =
    Err (OtherError "wandb: connection refused") /\
  log_pca (Demo.built false 2 false false)
    [[[Demo.fl 1; Demo.fl 2]; [Demo.fl 3; Demo.fl 4]]] ["train"] 1000 0%nat =
    Err (OtherError "wandb: connection refused").
Proof. split; [reflexivity|split; reflexivity]. Qed.

(** The amended C6 on the demo object with the refusing sink, for
    [log_visual_inspection]. *)
Lemma telemetry_errors_propagate_witness :
  log_visual_inspection_figure (E := Demo.env false) Demo.x_test Demo.x_train
    "test vs train" (Demo.fl 5, Demo.fl 5) 200 (Demo.fl 1) 0%nat = Ok (tt, 0%nat) /\
  log_visual_inspection (Demo.built false 2 false false) Demo.x_test Demo.x_train
    "test vs train" (Demo.fl 5, Demo.fl 5) 200 (Demo.fl 1) 0%nat =
    Err (OtherError "wandb: connection refused").
Proof.
  assert (Hfig : log_visual_inspection_figure (E := Demo.env false)
                   Demo.x_test Demo.x_train "test vs train"
                   (Demo.fl 5, Demo.fl 5) 200 (Demo.fl 1) 0%nat = Ok (tt, 0%nat))
    by (vm_compute; reflexivity).
  split; [exact Hfig|].
  apply (proj1 (telemetry_errors_propagate (Demo.built false 2 false false)
                  (OtherError "wandb: connection refused"))
               _ _ _ _ _ _ _ _ Hfig).
  reflexivity.
Defined.

(* ================================================================= *)
(** ** Further properties of the batching loops *)

Lemma num_batches_of_zero (n : Z) : num_batches_of n 0 = Err ZeroDivisionError.
Proof. reflexivity. Qed.

Lemma num_batches_of_neg (n b : Z) :
  b < 0 -> 0 <= n -> exists k, num_batches_of n b = Ok k /\ k <= 0.
Proof.
  intros Hb Hn. unfold num_batches_of, py_floordiv, py_mod.
  destruct (Z.eqb_spec b 0) as [?|_]; [lia|]. simpl.
  pose proof (Z.div_mod n b ltac:(lia)) as Hdm.
  pose proof (Z.mod_neg_bound n b Hb) as Hr.
  eexists; split; [reflexivity|].
  destruct (Z.eqb_spec (n mod b) 0); simpl; nia.
Qed.

Lemma mapM_first_error {A B : Type} (f : A -> result B) (xs ys : list A)
    (x : A) (e : exn) :
  (forall x', In x' xs -> exists y, f x' = Ok y) -> f x = Err e ->
  mapM f (xs ++ x :: ys) = Err e.
Proof.
  intros Hok Hx. induction xs as [|x0 xs IH]; simpl.
  - now rewrite Hx.
  - destruct (Hok x0 (or_introl eq_refl)) as [y Hy]. rewrite Hy. cbn [bind].
    rewrite IH; [reflexivity|]. intros x' Hin. apply Hok. now right.
Qed.

Lemma py_range_split (n k : Z) :
  0 <= k < n ->
  exists rest, py_range n = py_range k ++ k :: rest.
Proof.
  intros Hk. unfold py_range.
  replace (Z.to_nat n) with (Z.to_nat k + S (Z.to_nat n - S (Z.to_nat k)))%nat by lia.
  rewrite seq_app, map_app. simpl.
  eexists. f_equal. f_equal. lia.
Qed.

Lemma mapM_concat_length {A B : Type} (f : list A -> result (list B))
    (xs : list (list A)) (ys : list (list B)) :
  (forall x y, f x = Ok y -> length y = length x) ->
  mapM f xs = Ok ys -> length (concat ys) = length (concat xs).
Proof.
  intros Hlen. revert ys. induction xs as [|x xs IH]; simpl; intros ys H.
  - now inversion H.
  - destruct (f x) as [y|] eqn:Hy; simpl in H; [|discriminate].
    destruct (mapM f xs) as [zs|]; simpl in H; [|discriminate].
    inversion H; subst. simpl. rewrite !length_app.
    now rewrite (Hlen x y Hy), (IH zs eq_refl).
Qed.

Lemma np_concatenate_Ok_inv {A : Type} (parts : list (list A)) (r : list A) :
  np_concatenate parts = Ok r -> parts <> [] /\ r = concat parts.
Proof.
  destruct parts; [discriminate|]. intros H. inversion H. split; [discriminate|reflexivity].
Qed.

(** X11.  The module computes the number of batches in two ways: with
    [if n % b > 0: n_iters += 1] in [compute_z] and its copies, and with
    [+ (1 if n % b != 0 else 0)] in [sample].  For a row count [n >= 0]
    both raise [ZeroDivisionError] for [b = 0], both give the same count
    for [b > 0], and for every non-zero [b] the two loops run over the
    same range (the counts can differ for a negative [b], but both are
    then non-positive and both loops are empty). *)
Theorem batch_count_formulas_agree (n b : Z) :
  0 <= n ->
  (b = 0 -> n_iters_of n b = Err ZeroDivisionError /\
            num_batches_of n b = Err ZeroDivisionError) /\
  (0 < b -> n_iters_of n b = Ok (ceil_div n b) /\
            num_batches_of n b = Ok (ceil_div n b)) /\
  (b <> 0 -> exists k1 k2, n_iters_of n b = Ok k1 /\ num_batches_of n b = Ok k2 /\
                           py_range k1 = py_range k2).
Proof.
  intros Hn. split; [|split].
  - intros ->. split; reflexivity.
  - intros Hb. split; [now apply n_iters_of_pos|now apply num_batches_of_pos].
  - intros Hb. destruct (Z.lt_trichotomy b 0) as [Hneg|[?|Hpos]]; [|lia|].
    + destruct (n_iters_of_neg n b Hneg Hn) as [k1 [H1 Hk1]].
      destruct (num_batches_of_neg n b Hneg Hn) as [k2 [H2 Hk2]].
      exists k1, k2. split; [exact H1|]. split; [exact H2|].
      now rewrite !py_range_nonpos.
    + exists (ceil_div n b), (ceil_div n b).
      split; [now apply n_iters_of_pos|]. split; [now apply num_batches_of_pos|].
      reflexivity.
Qed.

(** X11 at [n = 5], [b = -2]: the two counts are [-3] and [-2], the two
    ranges are empty. *)
Lemma batch_count_formulas_agree_witness :
  n_iters_of 5 (-2) = Ok (-3) /\ num_batches_of 5 (-2) = Ok (-2) /\
  exists k1 k2, n_iters_of 5 (-2) = Ok k1 /\ num_batches_of 5 (-2) = Ok k2 /\
                py_range k1 = py_range k2.
Proof.
  split; [reflexivity|]. split; [reflexivity|].
  apply (proj2 (proj2 (batch_count_formulas_agree 5 (-2) ltac:(discriminate)))).
  discriminate.
Defined.

Section LoopEdges.

Context {E : Env}.
Implicit Types (self : Evaluation E) (X : ndarray3) (w : World E).

(** X1.  [compute_z_gen] returns only for a positive batch size and an
  input with at least one row.  With [batch_size = 0] it raises
  [ZeroDivisionError]; with a negative batch size, or with an empty
  input and a positive batch size, the loop body is never run and
  [np.concatenate] of the empty list raises [ValueError].  None of this
  depends on the extractor. *)
Theorem compute_z_gen_degenerate self X :
(batch_size self = 0 -> compute_z_gen self X = Err ZeroDivisionError) /\
(batch_size self < 0 -> compute_z_gen self X = Err ValueError) /\
(0 < batch_size self -> rows3 X = [] -> compute_z_gen self X = Err ValueError) /\
(forall z, compute_z_gen self X = Ok z -> 0 < batch_size self /\ rows3 X <> []).
Proof.
split; [|split; [|split]].
- intros Hb. unfold compute_z_gen. rewrite Hb. reflexivity.
- intros Hb. unfold compute_z_gen.
  destruct (n_iters_of_neg (shape0 X) _ Hb (shape0_nonneg X)) as [k [Hk Hle]].
  rewrite Hk. cbn [bind]. unfold for_range. now rewrite py_range_nonpos.
- intros Hb Hnil. unfold compute_z_gen.
  rewrite (n_iters_of_pos _ _ Hb). cbn [bind].
  unfold shape0. rewrite Hnil. cbn [length Z.of_nat].
  rewrite ceil_div_zero. reflexivity.
- intros z. apply compute_z_gen_ok_inv.
Qed.

(** X4.  An exception of the extractor aborts the whole run: when the
  extraction succeeds on the slices before slice [k] and raises [e] on
  slice [k], [compute_z_gen] raises [e]; the features of the earlier
  slices are not returned and no later slice is visited. *)
Theorem compute_z_gen_first_failure self X (k : Z) (e : exn) :
0 < batch_size self ->
0 <= k < ceil_div (shape0 X) (batch_size self) ->
(forall j, 0 <= j < k ->
   exists z, _extract_feature_representations self
               (slice3 (j * batch_size self) ((j + 1) * batch_size self) X) = Ok z) ->
_extract_feature_representations self
  (slice3 (k * batch_size self) ((k + 1) * batch_size self) X) = Err e ->
compute_z_gen self X = Err e.
Proof.
intros Hb Hk Hbefore Hfail. unfold compute_z_gen.
rewrite (n_iters_of_pos _ _ Hb). cbn [bind]. unfold for_range.
destruct (py_range_split _ k Hk) as [rest ->].
rewrite (mapM_first_error _ _ _ _ e); [reflexivity| |exact Hfail].
intros j Hj. apply py_range_In in Hj. now apply Hbefore.
Qed.

(** X5.  When the extractor returns, for every slice, as many feature
  rows as the slice has samples, the output of [compute_z_gen] has
  exactly one row per input sample. *)
Theorem compute_z_gen_row_count self X (z : ndarray2) :
(forall rs y,
   _extract_feature_representations self (Array3 (chans X) (width X) rs) = Ok y ->
   length y = length rs) ->
compute_z_gen self X = Ok z ->
length z = length (rows3 X).
Proof.
intros Hlen Hz.
destruct (compute_z_gen_ok_inv self X z Hz) as [Hb Hne].
unfold compute_z_gen in Hz. rewrite (n_iters_of_pos _ _ Hb) in Hz.
cbn [bind] in Hz. unfold slice3 in Hz.
rewrite (for_range_slices
           (fun rs => _extract_feature_representations self
                        (Array3 (chans X) (width X) rs))) in Hz.
apply bind_Ok_inv in Hz. destruct Hz as [zs [Hzs Hcat]].
apply np_concatenate_Ok_inv in Hcat. destruct Hcat as [_ ->].
rewrite (mapM_concat_length _ _ _ Hlen Hzs).
unfold shape0. now rewrite batch_slices_cover.
Qed.

(** X2.  A [kind] other than ['train'] and ['test'] fails the assertion
  at the head of [compute_z], [compute_z_svq] and [compute_z_rec]
  before anything else happens: whatever the batch size (zero included),
  the data and the models.  The [raise ValueError] that follows the
  assertion in the three methods is never reached. *)
Theorem invalid_kind_fails_assertion self (kind : string)
  (stage1_forward : Stage1 E -> ndarray3 -> M (World E) ndarray3) :
(in_list kind ["train"; "test"] = false ->
   compute_z self kind = Err AssertionError /\
   (forall w, compute_z_svq self kind w = Err AssertionError) /\
   (forall w, compute_z_rec stage1_forward self kind w = Err AssertionError)) /\
select_split self kind <> Err ValueError.
Proof.
split.
- intros Hk.
  destruct (select_split_cases self kind) as [[Hk' _]|[_ Hs]];
    [rewrite Hk in Hk'; discriminate|].
  split; [|split].
  + unfold compute_z. now rewrite Hs.
  + intros w. unfold compute_z_svq. apply bindM_Err. now apply lift_Err.
  + intros w. unfold compute_z_rec. apply bindM_Err. now apply lift_Err.
- destruct (select_split_cases self kind) as [[_ [Hs|Hs]]|[_ Hs]];
    rewrite Hs; discriminate.
Qed.

End LoopEdges.

(** X1 on the demo object: batch sizes 0 and -2, and an empty input. *)
Lemma compute_z_gen_degenerate_witness :
  compute_z_gen (Demo.built true 0 false false) Demo.x_train = Err ZeroDivisionError /\
  compute_z_gen (Demo.built true (-2) false false) Demo.x_train = Err ValueError /\
  compute_z_gen (Demo.built true 2 false false) (Array3 1 2 []) = Err ValueError.
Proof.
  split; [|split].
  - apply (proj1 (compute_z_gen_degenerate (Demo.built true 0 false false)
                    Demo.x_train)). reflexivity.
  - apply (proj1 (proj2 (compute_z_gen_degenerate (Demo.built true (-2) false false)
                    Demo.x_train))). reflexivity.
  - apply (proj1 (proj2 (proj2 (compute_z_gen_degenerate
                    (Demo.built true 2 false false) (Array3 1 2 []))))); reflexivity.
Defined.

(** X4 on the demo object: a batch without channels makes the first
    slice raise [IndexError], which is what the run raises. *)
Lemma compute_z_gen_first_failure_witness :
  compute_z_gen (Demo.built true 2 false false)
    (Array3 0 2 [ []; []; [] ]) = Err IndexError.
Proof.
  apply (compute_z_gen_first_failure (Demo.built true 2 false false)
           (Array3 0 2 [ []; []; [] ]) 0 IndexError).
  - reflexivity.
  - split; [discriminate|reflexivity].
  - intros j Hj. exfalso. destruct Hj as [H0 H1]. apply H0. apply Z.compare_gt_iff. exact H1.
  - reflexivity.
Defined.

(** X5 on the demo train split with batch size 2. *)
Lemma compute_z_gen_row_count_witness :
  exists z, compute_z_gen (Demo.built true 2 false false) Demo.x_train = Ok z /\
            length z = 3%nat.
Proof.
  eexists. split; [reflexivity|].
  apply (compute_z_gen_row_count (Demo.built true 2 false false) Demo.x_train).
  - intros rs y H. unfold _extract_feature_representations in H. simpl in H.
    injection H as <-. apply length_map.
  - reflexivity.
Defined.

(** X2 on the demo object with batch size 0 and kind ['validation']. *)
Lemma invalid_kind_fails_assertion_witness :
  compute_z (Demo.built true 0 false false) "validation" = Err AssertionError /\
  compute_z_rec (DemoRec.stage1_forward true) (Demo.built true 0 false false)
    "validation" 0%nat = Err AssertionError.
Proof.
  destruct (proj1 (invalid_kind_fails_assertion (Demo.built true 0 false false)
                     "validation" (DemoRec.stage1_forward true)) eq_refl)
    as (Hz & _ & Hrec).
  split; [exact Hz|apply Hrec].
Defined.

(* ================================================================= *)
(** ** Further properties of [sample], [compute_z_svq] and [compute_z_rec] *)

Lemma py_slice_map {A B : Type} (f : A -> B) (lo hi : Z) (l : list A) :
  py_slice lo hi (map f l) = map f (py_slice lo hi l).
Proof.
  unfold py_slice. rewrite length_map, skipn_map, firstn_map. reflexivity.
Qed.

Lemma forM_lift {W A B : Type} (f : A -> result B) (xs : list A) (w : W) :
  forM (fun x => lift (f x)) xs w = lift (mapM f xs) w.
Proof.
  induction xs as [|x xs IH]; [reflexivity|].
  simpl. unfold bindM at 1. unfold lift at 1.
  destruct (f x) as [y|e]; [|reflexivity]. cbn [bind].
  unfold bindM. rewrite IH. unfold lift.
  now destruct (mapM f xs).
Qed.

Lemma lift_bind {W A B : Type} (r : result A) (k : A -> result B) (w : W) :
  bindM (lift r) (fun a => lift (k a)) w = lift (bind r k) w.
Proof. unfold bindM, lift. now destruct r. Qed.

(** What a loop with effects returned satisfies whatever every turn
    establishes. *)
Lemma forM_Ok_Forall {W A B : Type} (P : B -> Prop) (body : A -> M W B)
    (xs : list A) (w w' : W) (ys : list B) :
  (forall x w1 y w2, body x w1 = Ok (y, w2) -> P y) ->
  forM body xs w = Ok (ys, w') -> Forall P ys.
Proof.
  intros Hbody. revert w ys. induction xs as [|x xs IH]; intros w ys H.
  - apply ret_Ok_inv in H. destruct H as [-> _]. constructor.
  - simpl in H. inv_bindM H as y w1 Hy. inv_bindM H as zs w2 Hzs.
    apply ret_Ok_inv in H. destruct H as [-> ->].
    constructor; [now apply (Hbody x w y w1)|now apply (IH w1)].
Qed.

Lemma mapM_of_Forall {A B C : Type} (f : B -> result C) (a : A -> B) (b : A -> C)
    (ps : list A) :
  Forall (fun p => f (a p) = Ok (b p)) ps ->
  mapM f (map a ps) = Ok (map b ps).
Proof.
  induction 1 as [|p ps Hp _ IH]; [reflexivity|].
  simpl. now rewrite Hp, IH.
Qed.

Lemma np_concatenate3_Ok_inv (ts : list ndarray3) (x : ndarray3) :
  np_concatenate3 ts = Ok x ->
  ts <> [] /\
  (forall t, In t ts -> chans t = chans x /\ width t = width x) /\
  rows3 x = concat (map rows3 ts).
Proof.
  destruct ts as [|t rest]; [discriminate|]. unfold np_concatenate3.
  destruct (forallb (same_trailing t) rest) eqn:Hall; [|discriminate].
  intros H. injection H as <-. split; [discriminate|]. split; [|reflexivity].
  intros u [<-|Hu]; [now split|].
  rewrite forallb_forall in Hall. specialize (Hall u Hu).
  unfold same_trailing in Hall. apply andb_true_iff in Hall.
  destruct Hall as [Hc Hw]. apply Nat.eqb_eq in Hc, Hw. simpl. now split.
Qed.

Section SamplingEdges.

Context {E : Env}.
Implicit Types (self : Evaluation E) (w : World E).

(** [sample] after a valid [kind] and a sampler that returned. *)
Lemma sample_after_draw self (n_samples : Z) (kind : string)
  (class_index : option Z) w (xl xh x : ndarray3) w' :
in_list kind ["unconditional"; "conditional"] = true ->
(if (kind =? "unconditional")%string
 then unconditional_sample E (maskgit self) n_samples (batch_size self)
 else conditional_sample E (maskgit self) n_samples class_index
                         (batch_size self)) w = Ok ((xl, xh, x), w') ->
sample self n_samples kind class_index w =
(num_batches <~ lift (num_batches_of (shape0 x) (batch_size self)) ;;
 X_new_R <~ forM (fun i =>
      let start_idx := i * batch_size self in
      let end_idx := start_idx + batch_size self in
      let mini_batch := slice3 start_idx end_idx x in
      enhancer_forward (fidelity_enhancer self) mini_batch)
    (py_range num_batches) ;;
 X_new_R <~ lift (torch_cat (torch_cat_empty_error E) X_new_R) ;;
 ret ((xl, xh, x), X_new_R)) w'.
Proof.
intros Hkind Hdraw. unfold sample. rewrite Hkind.
assert (Hsel :
  (if (kind =? "unconditional")%string
   then unconditional_sample E (maskgit self) n_samples (batch_size self)
   else if (kind =? "conditional")%string
        then conditional_sample E (maskgit self) n_samples class_index
                                (batch_size self)
        else lift (Err ValueError)) w = Ok ((xl, xh, x), w')).
{ unfold in_list in Hkind. simpl in Hkind.
  destruct (String.eqb kind "unconditional"); [exact Hdraw|].
  destruct (String.eqb kind "conditional"); [exact Hdraw|discriminate]. }
unfold bindM at 1. simpl.
now rewrite (bindM_Ok _ _ _ _ _ Hsel).
Qed.

(** X3.  How [sample] fails.  A [kind] other than ['unconditional'] and
  ['conditional'] fails the assertion before the sampler is called.
  After the sampler has returned: a batch size of zero raises
  [ZeroDivisionError]; a negative batch size, or a sampled batch with no
  sample, leaves the list of refined mini-batches empty, and [sample]
  raises what [torch.cat] raises for an empty list - the exception
  [torch_cat_empty_error] of the installed torch, a [ValueError] or, in
  older versions, a [RuntimeError] - whatever the fidelity enhancer
  is. *)
Theorem sample_error_cases self (n_samples : Z) (kind : string)
  (class_index : option Z) w :
(in_list kind ["unconditional"; "conditional"] = false ->
   sample self n_samples kind class_index w = Err AssertionError) /\
(forall xl xh x w',
   in_list kind ["unconditional"; "conditional"] = true ->
   (if (kind =? "unconditional")%string
    then unconditional_sample E (maskgit self) n_samples (batch_size self)
    else conditional_sample E (maskgit self) n_samples class_index
                            (batch_size self)) w = Ok ((xl, xh, x), w') ->
   (batch_size self = 0 ->
      sample self n_samples kind class_index w = Err ZeroDivisionError) /\
   (batch_size self < 0 ->
      sample self n_samples kind class_index w =
      Err (torch_cat_empty_error E)) /\
   (0 < batch_size self -> rows3 x = [] ->
      sample self n_samples kind class_index w =
      Err (torch_cat_empty_error E))).
Proof.
split.
- intros Hk. unfold sample. rewrite Hk. reflexivity.
- intros xl xh x w' Hk Hdraw.
  rewrite (sample_after_draw self n_samples kind class_index w xl xh x w' Hk Hdraw).
  split; [|split].
  + intros Hb. rewrite Hb. reflexivity.
  + intros Hb.
    destruct (num_batches_of_neg (shape0 x) _ Hb (shape0_nonneg x)) as [k [Hk' Hle]].
    rewrite (bindM_Ok _ _ _ _ _ (lift_Ok _ w' _ Hk')).
    now rewrite (py_range_nonpos k Hle).
  + intros Hb Hnil.
    rewrite (bindM_Ok _ _ _ _ _ (lift_Ok _ w' _ (num_batches_of_pos _ _ Hb))).
    unfold shape0. rewrite Hnil. cbn [length Z.of_nat].
    now rewrite ceil_div_zero.
Qed.

(** X6.  With a loaded fidelity enhancer that treats the samples of a
  mini-batch one by one (it maps every sample by [h], keeps the shape
  and the world), the refined batch returned by [sample] is [h] applied
  to every sample of [x_new], in order, for every positive batch size:
  the batch size of the refinement loop does not show in the result. *)
Theorem sample_rowwise_enhancer self (n_samples : Z) (kind : string)
  (class_index : option Z) w (fe : FidelityEnhancer E)
  (h : list series -> list series) (xl xh x : ndarray3) w' :
fidelity_enhancer self = Loaded fe ->
(forall rs w1,
   fe_forward E fe (Array3 (chans x) (width x) rs) w1 =
   Ok (Array3 (chans x) (width x) (map h rs), w1)) ->
0 < batch_size self ->
in_list kind ["unconditional"; "conditional"] = true ->
(if (kind =? "unconditional")%string
 then unconditional_sample E (maskgit self) n_samples (batch_size self)
 else conditional_sample E (maskgit self) n_samples class_index
                         (batch_size self)) w = Ok ((xl, xh, x), w') ->
rows3 x <> [] ->
sample self n_samples kind class_index w =
Ok ((xl, xh, x, Array3 (chans x) (width x) (map h (rows3 x))), w').
Proof.
intros Hfe Hrow Hb Hk Hdraw Hne.
rewrite (sample_after_draw self n_samples kind class_index w xl xh x w' Hk Hdraw).
rewrite (bindM_Ok _ _ _ _ _ (lift_Ok _ w' _ (num_batches_of_pos _ _ Hb))).
set (k := ceil_div (shape0 x) (batch_size self)).
set (F := fun i => Array3 (chans x) (width x)
            (map h (py_slice (i * batch_size self) ((i + 1) * batch_size self)
                             (rows3 x)))).
assert (Hparts : forM (fun i =>
            let start_idx := i * batch_size self in
            let end_idx := start_idx + batch_size self in
            let mini_batch := slice3 start_idx end_idx x in
            enhancer_forward (fidelity_enhancer self) mini_batch)
          (py_range k) w' = Ok (map F (py_range k), w')).
{ rewrite (forM_ext _ (fun i => ret (F i))); [apply forM_ret|].
  intros i w1. rewrite Hfe. cbv zeta. unfold enhancer_forward, slice3.
  rewrite Hrow. unfold ret, F.
  now replace (i * batch_size self + batch_size self)
    with ((i + 1) * batch_size self) by ring. }
rewrite (bindM_Ok _ _ _ _ _ Hparts).
assert (Hk1 : 1 <= k).
{ apply ceil_div_pos; [assumption|]. unfold shape0.
  destruct (rows3 x); [contradiction|simpl; lia]. }
rewrite (torch_cat_uniform _ _ (chans x) (width x)).
- unfold bindM, lift, ret. do 4 f_equal.
  rewrite map_map. unfold F. simpl.
  rewrite <- (map_map (fun i => py_slice (i * batch_size self)
                                 ((i + 1) * batch_size self) (rows3 x)) (map h)).
  rewrite <- concat_map.
  change (map (fun i => py_slice (i * batch_size self)
                                 ((i + 1) * batch_size self) (rows3 x))
              (py_range k))
    with (batch_slices k (batch_size self) (rows3 x)).
  unfold k, shape0. now rewrite batch_slices_cover.
- intros Hnil. apply (f_equal (@length _)) in Hnil.
  rewrite length_map, py_range_length in Hnil. simpl in Hnil. lia.
- intros t Ht. apply in_map_iff in Ht. destruct Ht as [i [<- _]]. now split.
Qed.

(** X7.  What [compute_z_svq] returns belongs together: with an
  extractor that treats rows one by one, the feature rows [zs] are the
  features of the rows of the returned series [xs_a], in the same
  order (so both have the same number of rows). *)
Theorem compute_z_svq_features_of_returned_series self (kind : string) w
  (zs : ndarray2) (xs_a : ndarray3) w'
  (g : list series -> result (list float)) :
compute_z_svq self kind w = Ok ((zs, xs_a), w') ->
(forall rs, _extract_feature_representations self
              (Array3 (chans xs_a) (width xs_a) rs) = mapM g rs) ->
mapM g (rows3 xs_a) = Ok zs.
Proof.
intros H Hg. unfold compute_z_svq in H.
inv_bindM H as X wa HX.
inv_bindM H as n_iters wb Hn.
inv_bindM H as parts wc Hparts.
inv_bindM H as zs' wd Hzs. inv_lift Hzs.
inv_bindM H as xs' we Hxs. inv_lift Hxs.
apply ret_Ok_inv in H. destruct H as [H _]. injection H as -> ->.
apply np_concatenate_Ok_inv in Hzs. destruct Hzs as [_ ->].
apply np_concatenate3_Ok_inv in Hxs. destruct Hxs as (_ & Hshape & Hrows).
assert (Hpair : Forall (fun p => _extract_feature_representations self (snd p) =
                                 Ok (fst p)) parts).
{ eapply forM_Ok_Forall; [|exact Hparts].
  intros i w1 y w2 Hy. cbv zeta in Hy.
  inv_bindM Hy as x_dev w_dev Hmove.
  inv_bindM Hy as tau w3 Htau.
  inv_bindM Hy as s_a_l w4 Hl.
  inv_bindM Hy as s_a_h w5 Hh.
  inv_bindM Hy as x_a_l w6 Hdl.
  inv_bindM Hy as x_a_h w7 Hdh.
  inv_bindM Hy as x_a w8 Hadd.
  inv_bindM Hy as z_t w9 Hext. inv_lift Hext.
  apply ret_Ok_inv in Hy. destruct Hy as [-> _]. exact Hext. }
rewrite Hrows, <- mapM_rows_concat.
rewrite map_map.
rewrite (mapM_of_Forall (mapM g) (fun p => rows3 (snd p)) fst); [reflexivity|].
apply Forall_forall. intros p Hp.
rewrite Forall_forall in Hpair. specialize (Hpair p Hp).
destruct (Hshape (snd p) (in_map snd parts p Hp)) as [Hc Hw].
destruct p as [z_t [pc pw prs]]. simpl in *.
rewrite <- Hg, <- Hc, <- Hw. exact Hpair.
Qed.

(** X8.  [compute_z_rec] is [compute_z_gen] on the reconstructions: when
  the stage-1 model reconstructs the samples of a batch one by one (it
  maps every sample by [r] and keeps the world), [compute_z_rec(kind)]
  gives, value or exception, what [compute_z_gen] gives on the
  reconstruction of the whole split - for every batch size. *)
Theorem compute_z_rec_is_compute_z_gen_of_reconstruction
  (stage1_forward : Stage1 E -> ndarray3 -> M (World E) ndarray3)
  self (kind : string) (X : ndarray3) (r : list series -> list series)
  (c wd : nat) w :
select_split self kind = Ok X ->
(forall rs w1,
   stage1_forward (stage1 self) (to_float32 E (Array3 (chans X) (width X) rs)) w1 =
   Ok (Array3 c wd (map r rs), w1)) ->
compute_z_rec stage1_forward self kind w =
lift (compute_z_gen self (Array3 c wd (map r (rows3 X)))) w.
Proof.
intros Hsel Hrec. unfold compute_z_rec, compute_z_gen.
rewrite (bindM_Ok _ _ _ _ _ (lift_Ok _ w _ Hsel)). cbv zeta.
unfold shape0 at 2. cbn [rows3]. rewrite length_map. fold (shape0 X).
destruct (n_iters_of (shape0 X) (batch_size self)) as [k|e]; [|reflexivity].
unfold bindM at 1. unfold lift at 1. cbn [bind]. unfold bindM at 1.
rewrite (forM_ext _ (fun i => lift (_extract_feature_representations self
            (slice3 (i * batch_size self) ((i + 1) * batch_size self)
                    (Array3 c wd (map r (rows3 X))))))).
2:{ intros i w1. unfold slice3 at 1. rewrite (bindM_Ok _ _ _ _ _ (Hrec _ w1)).
    unfold slice3. cbn [chans width rows3]. now rewrite py_slice_map. }
rewrite forM_lift. unfold lift, for_range. cbn [bind].
now destruct (mapM _ (py_range k)).
Qed.

End SamplingEdges.

(** X3 on the demo object, whose [torch.cat] raises [ValueError] for an
    empty list: an invalid kind; no sample drawn. *)
Lemma sample_error_cases_witness :
  sample (Demo.built true 2 false false) 5 "both" None 0%nat = Err AssertionError /\
  sample (Demo.built true 2 false false) 0 "conditional" (Some 1) 0%nat =
    Err ValueError /\
  sample (Demo.built true 0 false false) 5 "unconditional" None 0%nat =
    Err ZeroDivisionError.
Proof.
  split; [|split].
  - apply (proj1 (sample_error_cases (Demo.built true 2 false false) 5 "both"
                    None 0%nat)). reflexivity.
  - apply (proj2 (proj2 (proj2 (sample_error_cases (Demo.built true 2 false false)
                    0 "conditional" (Some 1) 0%nat)
                    (Demo.sampled 0) (Demo.sampled 0) (Demo.sampled 0) 0%nat
                    eq_refl eq_refl))); reflexivity.
  - apply (proj1 (proj2 (sample_error_cases (Demo.built true 0 false false)
                    5 "unconditional" None 0%nat)
                    (Demo.sampled 5) (Demo.sampled 5) (Demo.sampled 5) 0%nat
                    eq_refl eq_refl)). reflexivity.
Defined.

(** X6 on the demo object with the loaded (pass-through) enhancer. *)
Lemma sample_rowwise_enhancer_witness :
  sample (Demo.built true 2 true false) 3 "unconditional" None 0%nat =
  Ok ((Demo.sampled 3, Demo.sampled 3, Demo.sampled 3,
       Array3 1 2 (map (fun smp => smp) (rows3 (Demo.sampled 3)))), 0%nat).
Proof.
  apply (sample_rowwise_enhancer (Demo.built true 2 true false) 3 "unconditional"
           None 0%nat tt (fun smp => smp)
           (Demo.sampled 3) (Demo.sampled 3) (Demo.sampled 3) 0%nat).
  - reflexivity.
  - intros rs w1. simpl. unfold ret. now rewrite map_id.
  - reflexivity.
  - reflexivity.
  - reflexivity.
  - discriminate.
Defined.

(** X7 on the demo object with the loaded enhancer. *)
Lemma compute_z_svq_features_of_returned_series_witness :
  compute_z_svq (Demo.built true 2 true false) "train" 0%nat =
    Ok (([[Demo.fl 1; Demo.fl 2]; [Demo.fl 3; Demo.fl 4]; [Demo.fl 5; Demo.fl 6]],
         Demo.x_train), 0%nat) /\
  mapM (fun smp => Ok (Demo.first_channel smp)) (rows3 Demo.x_train) =
    Ok [[Demo.fl 1; Demo.fl 2]; [Demo.fl 3; Demo.fl 4]; [Demo.fl 5; Demo.fl 6]].
Proof.
  assert (Hrun : compute_z_svq (Demo.built true 2 true false) "train" 0%nat =
            Ok (([[Demo.fl 1; Demo.fl 2]; [Demo.fl 3; Demo.fl 4];
                  [Demo.fl 5; Demo.fl 6]], Demo.x_train), 0%nat)) by reflexivity.
  split; [exact Hrun|].
  apply (compute_z_svq_features_of_returned_series _ _ _ _ _ _ _ Hrun).
  intros rs. unfold _extract_feature_representations. simpl.
  symmetry. apply mapM_pure.
Defined.

(** X8 on the demo test split, with a reconstruction that reverses every
    channel. *)
Lemma compute_z_rec_is_compute_z_gen_of_reconstruction_witness :
  compute_z_rec (DemoRec.stage1_forward true) (Demo.built true 1 false false)
    "test" 0%nat =
  Ok ([[Demo.fl 8; Demo.fl 7]; [Demo.fl 10; Demo.fl 9]], 0%nat).
Proof.
  rewrite (compute_z_rec_is_compute_z_gen_of_reconstruction
             (DemoRec.stage1_forward true) (Demo.built true 1 false false)
             "test" Demo.x_test DemoRec.swap_sample 1 2 0%nat eq_refl).
  - reflexivity.
  - intros rs w1. reflexivity.
Defined.

(* ================================================================= *)
(** ** Further properties of the constructor and of [log_pca] *)

Section ConstructorFacts.

Context {E : Env}.
Implicit Types (self : Evaluation E) (a : InitArgs E) (w : World E).

(** The attributes of an object that [__init__] returned, in terms of
  the arguments and of the object itself. *)
Lemma Evaluation_init_fields a (w0 w1 : World E) self :
Evaluation_init a w0 = Ok (self, w1) ->
config_evaluation_batch_size E (arg_config a) = Ok (batch_size self) /\
in_list (arg_feature_extractor_type a) ["supervised_fcn"; "rocket"] = true /\
feature_extractor_type self = arg_feature_extractor_type a /\
(if (arg_feature_extractor_type a =? "rocket")%string
 then exists k, rocket_kernels self = Some k
 else rocket_kernels self = None) /\
(if arg_use_fidelity_enhancer a
 then exists fe, fidelity_enhancer self = Loaded fe
 else fidelity_enhancer self = Identity) /\
ts_len self = Z.of_nat (width (X_train self)) /\
n_classes self = Z.of_nat (length (nodup Z.eq_dec (Y_train self))) /\
maskgit self = stage2_maskgit E (stage2 self) /\
stage1 self = maskgit_stage1 E (maskgit self) /\
(exists zt zs, z_train self = Some zt /\ z_test self = Some zs /\
               compute_z self "train" = Ok zt /\ compute_z self "test" = Ok zs) /\
(exists x0 x1 y0 y1, xmin_pca self = Some x0 /\ xmax_pca self = Some x1 /\
                     ymin_pca self = Some y0 /\ ymax_pca self = Some y1).
Proof.
intros H. unfold Evaluation_init in H.
inv_bindM H as dev w_dev Hdev. inv_lift Hdev.
inv_bindM H as bs wa Hbs. inv_lift Hbs.
inv_bindM H as u wb Hassert. inv_lift Hassert.
inv_bindM H as the_fcn wc Hfcn.
inv_bindM H as kernels wd Hker.
inv_bindM H as data we Hdata.
destruct data as [[[x_train x_test] y_train] y_test].
inv_bindM H as st2 wf Hst2.
inv_bindM H as enh wg Henh.
inv_bindM H as zs_train wh Hztrain. inv_lift Hztrain.
inv_bindM H as zs_test wi Hztest. inv_lift Hztest.
inv_bindM H as fit wj Hfit. destruct fit as [fitted z_transform_pca].
inv_bindM H as c0 wk Hc0. inv_bindM H as xmin wl Hxmin.
inv_bindM H as xmax wm Hxmax. inv_bindM H as c1 wn Hc1.
inv_bindM H as ymin wo Hymin. inv_bindM H as ymax wp Hymax.
apply ret_Ok_inv in H. destruct H as [-> _]. cbn [batch_size
  feature_extractor_type rocket_kernels fidelity_enhancer ts_len n_classes
  maskgit stage1 stage2 z_train z_test xmin_pca xmax_pca ymin_pca ymax_pca
  X_train Y_train].
split; [exact Hbs|].
split.
{ unfold py_assert in Hassert.
  destruct (in_list (arg_feature_extractor_type a) ["supervised_fcn"; "rocket"]);
    [reflexivity|discriminate]. }
split; [reflexivity|].
split.
{ destruct (String.eqb (arg_feature_extractor_type a) "rocket").
  - inv_bindM Hker as k wq Hgen. apply ret_Ok_inv in Hker.
    destruct Hker as [-> _]. now eexists.
  - apply ret_Ok_inv in Hker. now destruct Hker. }
split.
{ destruct (arg_use_fidelity_enhancer a).
  - inv_bindM Henh as m wq Hnew. inv_bindM Henh as sd wr Hload.
    inv_bindM Henh as m' ws Hsd. apply ret_Ok_inv in Henh.
    destruct Henh as [-> _]. now eexists.
  - apply ret_Ok_inv in Henh. now destruct Henh. }
do 4 (split; [reflexivity|]).
split.
- exists zs_train, zs_test. repeat split; assumption.
- exists xmin, xmax, ymin, ymax. repeat split.
Qed.

(** X9.  After [__init__] the cached feature sets are what [compute_z]
  gives on the finished object: [self.z_train] and [self.z_test] are set,
  [compute_z('train')] and [compute_z('test')] return them again, and the
  four PCA axis bounds read by [log_pca] are set. *)
Theorem init_caches_features a (w0 w1 : World E) self :
Evaluation_init a w0 = Ok (self, w1) ->
(exists zt zs, z_train self = Some zt /\ z_test self = Some zs /\
               compute_z self "train" = Ok zt /\ compute_z self "test" = Ok zs) /\
(exists x0 x1 y0 y1, xmin_pca self = Some x0 /\ xmax_pca self = Some x1 /\
                     ymin_pca self = Some y0 /\ ymax_pca self = Some y1).
Proof.
intros H.
destruct (Evaluation_init_fields a w0 w1 self H)
  as (_ & _ & _ & _ & _ & _ & _ & _ & _ & Hz & Hb).
now split.
Qed.

(** X10.  On an object that [__init__] returned the selected extractor
  is complete: either the type is ['supervised_fcn'], no custom dataset
  is used, [self.fcn] is set and the extraction is the classifier's
  feature vector; or the type is ['rocket'], [self.rocket_kernels] is set
  and the extraction is the kernel transform of channel 0.  The
  extraction itself never raises [ValueError] (unknown type) or
  [AttributeError] (missing model) on such an object. *)
Theorem constructed_extractor_is_complete a (w0 w1 : World E) self :
Evaluation_init a w0 = Ok (self, w1) ->
(feature_extractor_type self = "supervised_fcn" /\
 arg_use_custom_dataset a = false /\
 exists f, fcn self = Some f /\
   forall x, _extract_feature_representations self x =
             fcn_forward E f (to_float32 E x) true) \/
(feature_extractor_type self = "rocket" /\
 exists k, rocket_kernels self = Some k /\
   forall x, _extract_feature_representations self x =
             (x0 <- channel0 x ;; apply_kernels E x0 k)).
Proof.
intros H.
destruct (Evaluation_init_fields a w0 w1 self H)
  as (_ & Hin & Hty & Hker & _).
destruct (Evaluation_init_inv a w0 w1 self H)
  as (_ & _ & _ & _ & Hcust & Hnocust & _ & Hrocket).
unfold in_list in Hin. simpl in Hin. rewrite <- Hty in Hin, Hker.
destruct (String.eqb_spec (feature_extractor_type self) "supervised_fcn") as [Hs|Hs].
- left. split; [exact Hs|].
  destruct (arg_use_custom_dataset a) eqn:Hc.
  + specialize (Hrocket (Hcust eq_refl)). rewrite Hs in Hrocket. discriminate.
  + split; [reflexivity|]. destruct (Hnocust eq_refl) as [f Hf].
    exists f. split; [exact Hf|]. intros x.
    unfold _extract_feature_representations. now rewrite Hs, Hf.
- right.
  destruct (String.eqb_spec (feature_extractor_type self) "rocket") as [Hr|Hr];
    [|discriminate].
  split; [exact Hr|]. destruct Hker as [k Hk]. exists k. split; [exact Hk|].
  intros x. unfold _extract_feature_representations. rewrite Hr, Hk. simpl.
  now destruct (channel0 x).
Qed.

(** X12.  Attributes derived by [__init__]: [self.n_classes] is the
  number of distinct labels of [Y_train], whatever was passed as the
  argument [n_classes]; [self.ts_len] is the series length of [X_train];
  [self.fidelity_enhancer] is a loaded enhancer exactly when
  [use_fidelity_enhancer] is set; [self.rocket_kernels] is set exactly
  for the ['rocket'] extractor; the stage-1 model is the one of the
  stage-2 model's generator. *)
Theorem init_derived_attributes a (w0 w1 : World E) self :
Evaluation_init a w0 = Ok (self, w1) ->
n_classes self = Z.of_nat (length (nodup Z.eq_dec (Y_train self))) /\
ts_len self = Z.of_nat (width (X_train self)) /\
(arg_use_fidelity_enhancer a = true <-> exists fe, fidelity_enhancer self = Loaded fe) /\
(feature_extractor_type self = "rocket" <-> exists k, rocket_kernels self = Some k) /\
stage1 self = maskgit_stage1 E (stage2_maskgit E (stage2 self)).
Proof.
intros H.
destruct (Evaluation_init_fields a w0 w1 self H)
  as (_ & _ & Hty & Hker & Hfe & Hts & Hnc & Hmg & Hs1 & _).
split; [exact Hnc|]. split; [exact Hts|]. split; [|split].
- destruct (arg_use_fidelity_enhancer a); split.
  + intros _. exact Hfe.
  + reflexivity.
  + discriminate.
  + intros [fe Hl]. rewrite Hfe in Hl. discriminate.
- rewrite Hty.
  destruct (String.eqb_spec (arg_feature_extractor_type a) "rocket") as [Hr|Hr]; split.
  + intros _. exact Hker.
  + intros _. exact Hr.
  + intros Hc. contradiction.
  + intros [k Hk]. rewrite Hker in Hk. discriminate.
- now rewrite Hs1, Hmg.
Qed.

(** X13.  What [__init__] refuses, in the order of its first lines.
  An exception of [torch.device(gpu_device_index)] is raised as it is,
  before the configuration is read.  With the device made, a failing
  lookup of [config['evaluation']['batch_size']] is raised as it is.
  With the device made and the batch size read, an extractor type
  other than ['supervised_fcn'] and ['rocket'] fails the assertion
  before any model or data is loaded.  And with a batch size that is
  not positive the constructor never returns an object (its
  [compute_z] calls raise). *)
Theorem init_refusals a (w0 : World E) :
(forall e, torch_device E (arg_gpu_device_index a) = Err e ->
   Evaluation_init a w0 = Err e) /\
(forall dev e, torch_device E (arg_gpu_device_index a) = Ok dev ->
   config_evaluation_batch_size E (arg_config a) = Err e ->
   Evaluation_init a w0 = Err e) /\
(forall dev b, torch_device E (arg_gpu_device_index a) = Ok dev ->
   config_evaluation_batch_size E (arg_config a) = Ok b ->
   in_list (arg_feature_extractor_type a) ["supervised_fcn"; "rocket"] = false ->
   Evaluation_init a w0 = Err AssertionError) /\
(forall b, config_evaluation_batch_size E (arg_config a) = Ok b -> b <= 0 ->
   forall r, Evaluation_init a w0 <> Ok r).
Proof.
split; [|split; [|split]].
- intros e He. unfold Evaluation_init. apply bindM_Err. now apply lift_Err.
- intros dev e Hdev He. unfold Evaluation_init.
  rewrite (bindM_Ok _ _ _ _ _ (lift_Ok _ w0 _ Hdev)).
  apply bindM_Err. now apply lift_Err.
- intros dev b Hdev Hb Hin. unfold Evaluation_init.
  rewrite (bindM_Ok _ _ _ _ _ (lift_Ok _ w0 _ Hdev)).
  rewrite (bindM_Ok _ _ _ _ _ (lift_Ok _ w0 _ Hb)).
  apply bindM_Err. apply lift_Err. now rewrite Hin.
- intros b Hb Hle [self w1] H.
  destruct (Evaluation_init_fields a w0 w1 self H) as (Hbs & _).
  destruct (Evaluation_init_inv a w0 w1 self H) as (Hpos & _).
  rewrite Hb in Hbs. injection Hbs as ->. lia.
Qed.

(** X14.  [log_pca] checks its arguments first: when the numbers of
  feature sets and of labels differ it raises [AssertionError]; no
  figure is opened and nothing is sent to the telemetry sink. *)
Theorem log_pca_length_mismatch self (Zs : list ndarray2) (labels : list string)
  (n_plot_samples : Z) w :
length Zs <> length labels ->
log_pca_figure self Zs labels n_plot_samples w = Err AssertionError /\
log_pca self Zs labels n_plot_samples w = Err AssertionError.
Proof.
intros Hne.
assert (Hfig : log_pca_figure self Zs labels n_plot_samples w = Err AssertionError).
{ unfold log_pca_figure. apply bindM_Err. apply lift_Err.
  apply Nat.eqb_neq in Hne. now rewrite Hne. }
split; [exact Hfig|]. unfold log_pca. now apply bindM_Err.
Qed.

End ConstructorFacts.

(** X9 on the demo object. *)
Lemma init_caches_features_witness :
  Evaluation_init (Demo.args true 2 false "rocket" false) 0%nat =
    Ok (Demo.built true 2 false false, 0%nat) /\
  exists zt, z_train (Demo.built true 2 false false) = Some zt /\
             compute_z (Demo.built true 2 false false) "train" = Ok zt.
Proof.
  assert (Hinit : Evaluation_init (Demo.args true 2 false "rocket" false) 0%nat =
                  Ok (Demo.built true 2 false false, 0%nat)) by reflexivity.
  split; [exact Hinit|].
  destruct (proj1 (init_caches_features _ _ _ _ Hinit)) as (zt & zs & H1 & _ & H3 & _).
  exists zt. now split.
Defined.

(** X10 on the demo object built from a custom dataset: the kernel
    bank is there and the extraction is the kernel transform. *)
Lemma constructed_extractor_is_complete_witness :
  Evaluation_init (Demo.args true 2 false "rocket" true) 0%nat =
    Ok (Demo.built true 2 false true, 0%nat) /\
  exists k, rocket_kernels (Demo.built true 2 false true) = Some k /\
    forall x, _extract_feature_representations (Demo.built true 2 false true) x =
              (x0 <- channel0 x ;; apply_kernels (Demo.env true) x0 k).
Proof.
  assert (Hinit : Evaluation_init (Demo.args true 2 false "rocket" true) 0%nat =
                  Ok (Demo.built true 2 false true, 0%nat)) by reflexivity.
  split; [exact Hinit|].
  destruct (constructed_extractor_is_complete _ _ _ _ Hinit)
    as [(_ & Hc & _)|(_ & Hk)]; [discriminate Hc|exact Hk].
Defined.

(** X12 on the demo object: three train labels, two of them distinct,
    while the argument [n_classes] was 2 as well; series of length 2. *)
Lemma init_derived_attributes_witness :
  Evaluation_init (Demo.args true 2 true "rocket" false) 0%nat =
    Ok (Demo.built true 2 true false, 0%nat) /\
  n_classes (Demo.built true 2 true false) = 2 /\
  exists fe, fidelity_enhancer (Demo.built true 2 true false) = Loaded fe.
Proof.
  assert (Hinit : Evaluation_init (Demo.args true 2 true "rocket" false) 0%nat =
                  Ok (Demo.built true 2 true false, 0%nat)) by reflexivity.
  split; [exact Hinit|].
  destruct (init_derived_attributes _ _ _ _ Hinit) as (Hn & _ & Hfe & _).
  split; [exact Hn|]. now apply Hfe.
Defined.

(** X13 on the demo arguments: device index -1, which [torch.device]
    refuses (the extractor type, unknown as well, is not looked at); an
    unknown extractor type on device 0; and batch size 0. *)
Lemma init_refusals_witness :
  Evaluation_init DemoDevice.refused_args 0%nat = Err RuntimeError /\
  Evaluation_init (Demo.args true 2 false "fcn" false) 0%nat = Err AssertionError /\
  Evaluation_init (Demo.args true 0 false "rocket" false) 0%nat <>
    Ok (Demo.built true 0 false false, 0%nat).
Proof.
  split; [|split].
  - apply (proj1 (init_refusals DemoDevice.refused_args 0%nat)); reflexivity.
  - apply (proj1 (proj2 (proj2 (init_refusals (Demo.args true 2 false "fcn" false)
                                  0%nat))) 0 2); reflexivity.
  - apply (proj2 (proj2 (proj2 (init_refusals (Demo.args true 0 false "rocket" false)
                                  0%nat))) 0); [reflexivity|lia].
Defined.

(** X14 on the demo object: two feature sets, one label. *)
Lemma log_pca_length_mismatch_witness :
  log_pca (Demo.built true 2 false false)
    [[[Demo.fl 1; Demo.fl 2]]; [[Demo.fl 3; Demo.fl 4]]] ["train"] 1000 0%nat =
  Err AssertionError.
Proof.
  apply (proj2 (log_pca_length_mismatch (Demo.built true 2 false false)
                  [[[Demo.fl 1; Demo.fl 2]]; [[Demo.fl 3; Demo.fl 4]]] ["train"]
                  1000 0%nat ltac:(discriminate))).
Defined.

(* ================================================================= *)
(** ** Inception score and the batch size *)

Section InceptionBatchSize.

Context {E : Env}.
Implicit Types (self : Evaluation E) (X_gen : ndarray3).

(** X15.  Because [inception_score] counts its batches from [X_test]
  but slices [X_gen], its result depends on the batch size only through
  the number of rows it reaches.  With a classifier that treats rows one
  by one: when [X_gen] has no more rows than [X_test], every generated
  row is scored once, in order, for every positive batch size; when two
  positive batch sizes reach different numbers of rows of a longer
  [X_gen], the scored sets differ. *)
Theorem inception_score_batch_size_dependence self X_gen (f : Classifier E)
  (logits : list series -> list float) :
fcn self = Some f -> rows3 (X_test self) <> [] ->
(forall rs,
   fcn_forward E f (to_float32 E (Array3 (chans X_gen) (width X_gen) rs)) false =
   Ok (map logits rs)) ->
(shape0 X_gen <= shape0 (X_test self) ->
   forall b, 0 < b ->
     class_probabilities (with_batch_size b self) X_gen =
       Ok (map (fun r => softmax E (logits r)) (rows3 X_gen)) /\
     inception_score (with_batch_size b self) X_gen =
       calculate_inception_score E
         (map (fun r => softmax E (logits r)) (rows3 X_gen))) /\
(forall b1 b2, 0 < b1 -> 0 < b2 ->
   ceil_div (shape0 (X_test self)) b1 * b1 <
     ceil_div (shape0 (X_test self)) b2 * b2 ->
   ceil_div (shape0 (X_test self)) b1 * b1 < shape0 X_gen ->
   class_probabilities (with_batch_size b1 self) X_gen <>
   class_probabilities (with_batch_size b2 self) X_gen).
Proof.
intros Hf Hne Hrow.
assert (Hcp : forall b, 0 < b ->
          class_probabilities (with_batch_size b self) X_gen =
          Ok (map (fun r => softmax E (logits r))
                  (firstn (Z.to_nat (ceil_div (shape0 (X_test self)) b * b))
                          (rows3 X_gen)))).
{ intros b Hb.
  pose proof (class_probabilities_rowwise (with_batch_size b self)
                (chans X_gen) (width X_gen) (rows3 X_gen) f logits
                Hf Hb Hne Hrow) as H.
  destruct X_gen. exact H. }
split.
- intros Hle b Hb.
  pose proof (ceil_div_bounds (shape0 (X_test self)) b Hb) as Hc.
  assert (Hall : firstn (Z.to_nat (ceil_div (shape0 (X_test self)) b * b))
                        (rows3 X_gen) = rows3 X_gen).
  { apply firstn_all2. unfold shape0 in *. lia. }
  rewrite <- Hall at 1 2. rewrite <- (Hcp b Hb). split; [reflexivity|].
  unfold inception_score. rewrite (Hcp b Hb), Hall. reflexivity.
- intros b1 b2 H1 H2 Hlt Hshort Heq.
  rewrite (Hcp b1 H1), (Hcp b2 H2) in Heq. injection Heq as Heq.
  apply (f_equal (@length _)) in Heq.
  rewrite !length_map, !length_firstn in Heq.
  pose proof (ceil_div_bounds (shape0 (X_test self)) b1 H1).
  pose proof (shape0_nonneg (X_test self)).
  unfold shape0 in *. lia.
Qed.

End InceptionBatchSize.

(** X15 on the demo object (two test rows) and five generated rows:
    batch size 1 reaches two rows, batch size 3 reaches three. *)
Lemma inception_score_batch_size_dependence_witness :
  class_probabilities (with_batch_size 1 (Demo.built true 2 false false))
    (Demo.sampled 5) <>
  class_probabilities (with_batch_size 3 (Demo.built true 2 false false))
    (Demo.sampled 5) /\
  class_probabilities (with_batch_size 3 (Demo.built true 2 false false))
    (Demo.sampled 2) =
  Ok (map Demo.first_channel (rows3 (Demo.sampled 2))).
Proof.
  split.
  - apply (proj2 (inception_score_batch_size_dependence
                    (Demo.built true 2 false false) (Demo.sampled 5) tt
                    Demo.first_channel eq_refl ltac:(discriminate)
                    (fun rs => eq_refl)) 1 3); reflexivity.
  - apply (proj1 (inception_score_batch_size_dependence
                    (Demo.built true 2 false false) (Demo.sampled 2) tt
                    Demo.first_channel eq_refl ltac:(discriminate)
                    (fun rs => eq_refl))); [discriminate|reflexivity].
Defined.
